(** * plugin.video.netflix: the add-on entry point (resources/lib/run_addon.py)

    A shallow embedding of [run_addon.py]: the login decorator, the path
    router, the service status probe, the external-call guard and [run].

    The module is a thin layer of control flow over collaborators that live
    in other modules (login, the navigation handlers, Kodi's window
    properties, dialogs).  The collaborators are taken as parameters
    ([Collaborators]); the control flow of the module is written out in a
    state-and-exception monad, one definition per Python function.

    What the model takes for granted about the collaborators:
    - a call of a collaborator returns or raises; only the recursion of
      [_check_valid_credentials] and the wait loop of the external-call
      guard are given fuel;
    - the functions the module calls outside every [try] (logging, dialogs,
      Kodi's information queries, [endOfDirectory]) return normally;
    - an exception that does not derive from [Exception] ([SystemExit],
      [KeyboardInterrupt], [GeneratorExit]) comes from the login or from the
      navigation code, not from Kodi's window properties, [json.loads], the
      upgrade controller or the configuration wizard;
    - after [init_globals], the attributes of [g] this module reads are
      written by this module only. *)

From Stdlib Require Import Ascii String List ZArith QArith Qround Lia Bool.
From stdpp Require Import base gmap strings.

Set Warnings "-register-all".
Local Open Scope string_scope.
Local Open Scope list_scope.

(** ** Python values and exceptions *)

(** What [json.loads] can return. *)
Inductive pyvalue : Type :=
| PyNone
| PyBool (b : bool)
| PyInt (z : Z)
| PyFloat (q : Q)
| PyStr (s : string)
| PyList (l : list pyvalue)
| PyDict (d : gmap string pyvalue).

(** The exception classes the module names, [OtherError] for every other
    class deriving from [Exception], and the three classes of Python that
    derive from [BaseException] only.  The classes of
    [resources.lib.api.exceptions] derive from [Exception] directly, so no
    [except] clause of the module catches two of them. *)
Inductive exn_class : Type :=
| HttpError401
| InputStreamHelperError
| MbrStatusNeverMemberError
| MbrStatusFormerMemberError
| MissingCredentialsError
| NotLoggedInError
| InvalidPathError
| LoginValidateError
| BackendNotReady
| AttributeError
| ValueError
| OtherError (name : string)
| SystemExit
| KeyboardInterrupt
| GeneratorExit.

(** [issubclass(c, Exception)]: what [except Exception] catches. *)
Definition is_exception (c : exn_class) : bool :=
  match c with
  | SystemExit | KeyboardInterrupt | GeneratorExit => false
  | _ => true
  end.

(** An exception instance: its class and [str(exc)]. *)
Record exn : Type := Exn { cls : exn_class; exn_msg : string }.

(** A collaborator call returns or raises. *)
Inductive result (A : Type) : Type :=
| Ok (a : A)
| Err (e : exn).
Arguments Ok {A} a.
Arguments Err {A} e.

(** A call of this module returns, raises, or has not finished within the
    fuel it was given. *)
Inductive outcome (A : Type) : Type :=
| Ret (a : A)
| Raise (e : exn)
| OutOfFuel.
Arguments Ret {A} a.
Arguments Raise {A} e.
Arguments OutOfFuel {A}.

(** ** Handlers, globals and the observable trace *)

(** The classes [_get_nav_handler] can return. *)
Inductive nav_handler : Type :=
| Directory
| AddonActionExecutor
| LibraryActionExecutor
| HubBrowser.

(** The attributes of [resources.lib.globals.g] this module reads or writes. *)
Record Globals : Type := {
  MODE_DIRECTORY : string;
  MODE_ACTION : string;
  MODE_LIBRARY : string;
  MODE_HUB : string;
  MODE_PLAY : string;
  MODE_PLAY_STRM : string;
  REQUEST_PATH : string;
  REQUEST_PARAMS : gmap string string;
  IS_ADDON_FIRSTRUN : bool;
  IS_ADDON_EXTERNAL_CALL : bool;
  PLUGIN_HANDLE : Z;
  VERSION_RAW : string;
  URL : string;
  ADDON_ID : string
}.

Definition set_IS_ADDON_EXTERNAL_CALL (b : bool) (gl : Globals) : Globals :=
  {| MODE_DIRECTORY := MODE_DIRECTORY gl;
     MODE_ACTION := MODE_ACTION gl;
     MODE_LIBRARY := MODE_LIBRARY gl;
     MODE_HUB := MODE_HUB gl;
     MODE_PLAY := MODE_PLAY gl;
     MODE_PLAY_STRM := MODE_PLAY_STRM gl;
     REQUEST_PATH := REQUEST_PATH gl;
     REQUEST_PARAMS := REQUEST_PARAMS gl;
     IS_ADDON_FIRSTRUN := IS_ADDON_FIRSTRUN gl;
     IS_ADDON_EXTERNAL_CALL := b;
     PLUGIN_HANDLE := PLUGIN_HANDLE gl;
     VERSION_RAW := VERSION_RAW gl;
     URL := URL gl;
     ADDON_ID := ADDON_ID gl |}.

Inductive log_level : Type := LDebug | LInfo | LWarn | LError.

(** One event per call that leaves this module, in the order of the calls. *)
Inductive event : Type :=
| EvLog (level : log_level) (msg : string) (args : list pyvalue)
| EvCheckCredentials
| EvLogin (ask_credentials : option bool)
| EvCall (name : string)
| EvPlay (videoid : list string)
| EvPlayStrm (videoid : list string)
| EvInstantiate (executor_type : nav_handler)
| EvGetAttribute (name : string)
| EvInvoke (pathitems : list string)
| EvGetProperty (key : string)
| EvAbortRequested
| EvWaitForAbort (timeout : Q)
| EvInitGlobals (argv : list string)
| EvResetLogLevel
| EvCheckAddonUpgrade
| EvRunAddonConfiguration
| EvShowErrorInfo (title message : string) (unknown_error netflix_error : bool)
| EvShowBackendNotReady (detail : option string)
| EvShowOkDialog (title message : string)
| EvShowAddonErrorInfo (exc : exn)
| EvEndOfDirectory (handle : Z) (succeeded : bool)
| EvLogTimeTrace.

(** ** The collaborators

    [W] is the state of everything outside this module: Kodi, the background
    service, the user at the keyboard.  [PyObject] is a handler instance or
    one of its attributes.  A collaborator the module calls inside a [try]
    returns a [result]; the logging, dialog and Kodi query functions, which
    the module calls unguarded, return plainly.  The login and the navigation
    code may raise any exception, [SystemExit] and its like included. *)
Record Collaborators (W PyObject : Type) : Type := {
  (* resources.lib.common, resources.lib.api.api_requests *)
  check_credentials : W -> result bool * W;
  login : option bool -> W -> result bool * W;
  (* resources.lib.navigation *)
  play : list string -> W -> result unit * W;
  play_strm : list string -> W -> result unit * W;
  instantiate : nav_handler -> gmap string string -> W -> result PyObject * W;
  getattribute : PyObject -> string -> W -> result PyObject * W;
  attr_name : PyObject -> result string;
  invoke : PyObject -> list string -> W -> result unit * W;
  (* xbmc, xbmcgui, json *)
  getProperty : string -> W -> result string * W;
  loads : string -> result pyvalue;
  getInfoLabel : string -> W -> string;
  getCondVisibility : string -> W -> bool;
  abortRequested : W -> bool * W;
  waitForAbort : Q -> W -> bool * W;
  (* globals, upgrade controller, configuration wizard *)
  init_globals : list string -> W -> Globals * W;
  get_current_kodi_profile_name : W -> string;
  get_local_string : Z -> W -> string;
  py2_encode : string -> string;
  py2_decode : string -> string;
  str_format : string -> pyvalue -> string;
  format_exc : exn -> string;
  check_addon_upgrade : W -> result (bool * bool) * W;
  run_addon_configuration : W -> result unit * W;
  (* output: log, dialogs, xbmcplugin *)
  output : event -> W -> W;
  (* Kodi, json, the upgrade controller and the configuration wizard raise
     exceptions that derive from [Exception] *)
  getProperty_error :
    forall (key : string) (w w' : W) (e : exn),
      getProperty key w = (Err e, w') -> is_exception (cls e) = true;
  loads_error :
    forall (doc : string) (e : exn), loads doc = Err e -> is_exception (cls e) = true;
  check_addon_upgrade_error :
    forall (w w' : W) (e : exn),
      check_addon_upgrade w = (Err e, w') -> is_exception (cls e) = true;
  run_addon_configuration_error :
    forall (w w' : W) (e : exn),
      run_addon_configuration w = (Err e, w') -> is_exception (cls e) = true
}.
Arguments check_credentials {W PyObject}.
Arguments login {W PyObject}.
Arguments play {W PyObject}.
Arguments play_strm {W PyObject}.
Arguments instantiate {W PyObject}.
Arguments getattribute {W PyObject}.
Arguments attr_name {W PyObject}.
Arguments invoke {W PyObject}.
Arguments getProperty {W PyObject}.
Arguments loads {W PyObject}.
Arguments getInfoLabel {W PyObject}.
Arguments getCondVisibility {W PyObject}.
Arguments abortRequested {W PyObject}.
Arguments waitForAbort {W PyObject}.
Arguments init_globals {W PyObject}.
Arguments get_current_kodi_profile_name {W PyObject}.
Arguments get_local_string {W PyObject}.
Arguments py2_encode {W PyObject}.
Arguments py2_decode {W PyObject}.
Arguments str_format {W PyObject}.
Arguments format_exc {W PyObject}.
Arguments check_addon_upgrade {W PyObject}.
Arguments run_addon_configuration {W PyObject}.
Arguments output {W PyObject}.
Arguments getProperty_error {W PyObject}.
Arguments loads_error {W PyObject}.
Arguments check_addon_upgrade_error {W PyObject}.
Arguments run_addon_configuration_error {W PyObject}.

(** ** The state of an invocation *)

Record state (W : Type) : Type := State {
  world : W;
  g : Globals;
  trace : list event
}.
Arguments State {W}.
Arguments world {W}.
Arguments g {W}.
Arguments trace {W}.

Definition M (W A : Type) : Type := state W -> outcome A * state W.

Definition ret {W A} (a : A) : M W A := fun s => (Ret a, s).

Definition raise {W A} (c : exn_class) (msg : string) : M W A :=
  fun s => (Raise (Exn c msg), s).

Definition out_of_fuel {W A} : M W A := fun s => (OutOfFuel, s).

Definition bind {W A B} (m : M W A) (k : A -> M W B) : M W B :=
  fun s =>
    match m s with
    | (Ret a, s') => k a s'
    | (Raise e, s') => (Raise e, s')
    | (OutOfFuel, s') => (OutOfFuel, s')
    end.

(** [try: body except: handler]; a handler that answers [None] does not
    match the exception, which goes on to the enclosing block. *)
Definition try_except {W A} (body : M W A) (handler : exn -> option (M W A)) : M W A :=
  fun s =>
    match body s with
    | (Raise e, s') =>
        match handler e with
        | Some h => h s'
        | None => (Raise e, s')
        end
    | r => r
    end.

Declare Scope py_scope.
Delimit Scope py_scope with py.
Notation "x <- m ;; k" := (bind m (fun x => k))
  (at level 100, m at next level, right associativity) : py_scope.
Notation "m ;; k" := (bind m (fun _ => k))
  (at level 100, right associativity) : py_scope.
Local Open Scope py_scope.

Definition get_g {W} : M W Globals := fun s => (Ret (g s), s).

Definition put_g {W} (gl : Globals) : M W unit :=
  fun s => (Ret tt, State (world s) gl (trace s)).

Definition record {W} (ev : event) (s : state W) (w : W) : state W :=
  State w (g s) (trace s ++ [ev]).

(** A call of a collaborator that may raise. *)
Definition call {W A} (ev : event) (f : W -> result A * W) : M W A :=
  fun s =>
    match f (world s) with
    | (Ok a, w) => (Ret a, record ev s w)
    | (Err e, w) => (Raise e, record ev s w)
    end.

(** A call of a collaborator that returns a value. *)
Definition query {W A} (ev : event) (f : W -> A * W) : M W A :=
  fun s => let (a, w) := f (world s) in (Ret a, record ev s w).

(** A computation of Python itself, which returns or raises. *)
Definition lift {W A} (r : result A) : M W A :=
  fun s => match r with Ok a => (Ret a, s) | Err e => (Raise e, s) end.

(** A read of the world that leaves no trace. *)
Definition read {W A} (f : W -> A) : M W A := fun s => (Ret (f (world s)), s).

(** ** The module *)

Section RunAddon.

Context {W PyObject : Type}.
Variable env : Collaborators W PyObject.

Abbreviation Py := (M W).

(** A call of a log, dialog or plugin function: it returns [None]. *)
Definition emit (ev : event) : Py unit :=
  fun s => (Ret tt, record ev s (output env ev (world s))).

(** [debug(msg, *args)] and its siblings of [resources.lib.common], which
    format [msg] with [args] themselves. *)
Definition debug (msg : string) (args : list pyvalue) : Py unit := emit (EvLog LDebug msg args).
Definition info (msg : string) (args : list pyvalue) : Py unit := emit (EvLog LInfo msg args).
Definition warn (msg : string) (args : list pyvalue) : Py unit := emit (EvLog LWarn msg args).
Definition error (msg : string) (args : list pyvalue) : Py unit := emit (EvLog LError msg args).

(** [_check_valid_credentials()], lines 26-37.  The recursive call of line 33
    is inside the [try] of line 29. *)
Fixpoint _check_valid_credentials (fuel : nat) : Py bool :=
  match fuel with
  | O => out_of_fuel
  | S fuel' =>
      stored <- call EvCheckCredentials (check_credentials env) ;;
      if negb stored then
        try_except
          (logged <- call (EvLogin None) (login env None) ;;
           if negb logged then _check_valid_credentials fuel' else ret true)
          (fun e =>
             match cls e with
             | MissingCredentialsError => Some (ret false)
             | _ => None
             end)
      else ret true
  end.

(** The exceptions of line 51. *)
Definition session_invalid (c : exn_class) : bool :=
  match c with
  | NotLoggedInError | LoginValidateError => true
  | _ => false
  end.

(** [lazy_login(func)], lines 40-63: the wrapper it returns, for a [func]
    whose [__name__] is [func_name]. *)
Definition lazy_login {A : Type} (func_name : string) (func : A -> Py bool)
    (fuel : nat) (args : A) : Py bool :=
  try_except
    (valid <- _check_valid_credentials fuel ;;
     if negb valid then ret false else func args)
    (fun e =>
       if session_invalid (cls e) then
         Some
           (debug "Tried to perform an action without being logged in" [] ;;
            try_except
              (stored <- call EvCheckCredentials (check_credentials env) ;;
               logged <- call (EvLogin (Some (negb stored)))
                              (login env (Some (negb stored))) ;;
               if negb logged then ret false
               else
                 debug "Account logged in, try executing again {}" [PyStr func_name] ;;
                 func args)
              (fun e' =>
                 match cls e' with
                 | MissingCredentialsError => Some (ret false)
                 | _ => None
                 end))
       else None).

(** [_get_nav_handler(root_handler)], lines 88-102: four independent [if]s,
    a later one overriding an earlier one. *)
Definition _get_nav_handler (gl : Globals) (root_handler : string) : option nav_handler :=
  let nav_handler0 : option nav_handler := None in
  let nav_handler1 :=
    if String.eqb root_handler (MODE_DIRECTORY gl) then Some Directory else nav_handler0 in
  let nav_handler2 :=
    if String.eqb root_handler (MODE_ACTION gl) then Some AddonActionExecutor else nav_handler1 in
  let nav_handler3 :=
    if String.eqb root_handler (MODE_LIBRARY gl) then Some LibraryActionExecutor else nav_handler2 in
  if String.eqb root_handler (MODE_HUB gl) then Some HubBrowser else nav_handler3.

(** ['/'.join(pathitems)]. *)
Definition join_path (pathitems : list string) : string := String.concat "/" pathitems.

(** [_execute(executor_type, pathitems, params)], lines 105-112. *)
Definition _execute (executor_type : nav_handler) (pathitems : list string)
    (params : gmap string string) : Py unit :=
  executor <-
    try_except
      (instance <- call (EvInstantiate executor_type) (instantiate env executor_type params) ;;
       let name := match pathitems with item :: _ => item | [] => "root" end in
       call (EvGetAttribute name) (getattribute env instance name))
      (fun e =>
         match cls e with
         | AttributeError =>
             Some (raise InvalidPathError ("Unknown action " ++ join_path pathitems))
         | _ => None
         end) ;;
  name <- lift (attr_name env executor) ;;
  debug "Invoking action: {}" [PyStr name] ;;
  call (EvInvoke pathitems) (invoke env executor pathitems).

(** The body of [route], lines 67-85, before [@lazy_login] is applied. *)
Definition route_wrapped (pathitems : list string) : Py bool :=
  debug "Routing navigation request" [] ;;
  gl <- get_g ;;
  let root_handler := match pathitems with item :: _ => item | [] => MODE_DIRECTORY gl end in
  if String.eqb root_handler (MODE_PLAY gl) then
    call (EvPlay (tail pathitems)) (play env (tail pathitems)) ;;
    ret true
  else if String.eqb root_handler (MODE_PLAY_STRM gl) then
    call (EvPlayStrm (tail pathitems)) (play_strm env (tail pathitems)) ;;
    ret true
  else if String.eqb root_handler "extrafanart" then
    warn "Route: ignoring extrafanart invocation" [] ;;
    ret false
  else
    match _get_nav_handler gl root_handler with
    | None => raise InvalidPathError ("No root handler for path " ++ join_path pathitems)
    | Some nav_handler =>
        gl' <- get_g ;;
        _execute nav_handler (tail pathitems) (REQUEST_PARAMS gl') ;;
        ret true
    end.

(** [route], as the module exports it. *)
Definition route (fuel : nat) (pathitems : list string) : Py bool :=
  lazy_login "route" route_wrapped fuel pathitems.


(** [value.get(key)]: a dict answers [None] for a missing key; the other
    values [json.loads] returns have no [get]. *)
Definition py_type_name (v : pyvalue) : string :=
  match v with
  | PyNone => "NoneType"
  | PyBool _ => "bool"
  | PyInt _ => "int"
  | PyFloat _ => "float"
  | PyStr _ => "str"
  | PyList _ => "list"
  | PyDict _ => "dict"
  end.

Definition py_get (v : pyvalue) (key : string) : result pyvalue :=
  match v with
  | PyDict d => Ok (default PyNone (d !! key))
  | _ => Err (Exn AttributeError
                ("'" ++ py_type_name v ++ "' object has no attribute 'get'"))
  end.

(** [value == 'literal']. *)
Definition py_eq_str (v : pyvalue) (literal : string) : bool :=
  match v with
  | PyStr s => String.eqb s literal
  | _ => false
  end.

(** [_get_service_status(window_cls, prop_nf_service_status)], lines 115-121;
    [window_cls] is the home window, whose properties are part of [W]. *)
Definition _get_service_status (prop_nf_service_status : string) : Py pyvalue :=
  try_except
    (status <- call (EvGetProperty prop_nf_service_status)
                    (getProperty env prop_nf_service_status) ;;
     if String.eqb status "" then ret (PyDict ∅) else lift (loads env status))
    (fun e => if is_exception (cls e) then Some (ret (PyDict ∅)) else None).

Definition limit_sec : Q := 10.
Definition poll_interval : Q := 0.5.

(** The [while] loop of lines 153-156; [sec_elapsed] is the value of the
    local when the loop is entered, the result its value when the loop is
    left.  The multiples of 0.5 up to 10 are exact in binary floating point,
    so [Q] computes what the floats do. *)
Fixpoint wait_for_service (fuel : nat) (prop_nf_service_status : string)
    (sec_elapsed : Q) : Py Q :=
  match fuel with
  | O => out_of_fuel
  | S fuel' =>
      service_status <- _get_service_status prop_nf_service_status ;;
      status <- lift (py_get service_status "status") ;;
      if py_eq_str status "running" then ret sec_elapsed
      else if Qle_bool limit_sec sec_elapsed then ret sec_elapsed
      else
        abort <- query EvAbortRequested (abortRequested env) ;;
        if abort : bool then ret sec_elapsed
        else
          aborted <- query (EvWaitForAbort poll_interval) (waitForAbort env poll_interval) ;;
          if aborted : bool then ret sec_elapsed
          else wait_for_service fuel' prop_nf_service_status (sec_elapsed + poll_interval)
  end.

(** [_check_addon_external_call(window_cls, prop_nf_service_status)],
    lines 124-160. *)
Definition _check_addon_external_call (fuel : nat) (prop_nf_service_status : string)
    : Py bool :=
  gl <- get_g ;;
  plugin_name <- read (getInfoLabel env "Container.PluginName") ;;
  let is_other_plugin_name := negb (String.eqb plugin_name (ADDON_ID gl)) in
  (* a read of Kodi's state: evaluating it when [or] would skip it changes nothing *)
  is_media <- read (getCondVisibility env "Window.IsMedia") ;;
  if is_other_plugin_name || negb is_media then
    sec_elapsed <- wait_for_service fuel prop_nf_service_status 0 ;;
    debug "Add-on was initiated by an external call - workaround enabled time elapsed {}s"
          [if Qeq_bool sec_elapsed 0 then PyInt 0 else PyFloat sec_elapsed] ;;
    gl' <- get_g ;;
    put_g (set_IS_ADDON_EXTERNAL_CALL true gl') ;;
    ret true
  else ret false.

(** [s.split(sep)] for a one-character [sep]. *)
Fixpoint split_on (sep : ascii) (s : string) : list string :=
  match s with
  | EmptyString => [EmptyString]
  | String c rest =>
      if Ascii.eqb c sep then EmptyString :: split_on sep rest
      else
        match split_on sep rest with
        | part :: parts => String c part :: parts
        | [] => [String c EmptyString]
        end
  end.

(** [[part for part in path.split('/') if part]], line 197. *)
Definition parse_path (path : string) : list string :=
  List.filter (fun part => negb (String.eqb part "")) (split_on "/"%char path).

(** ['\r\n']. *)
Definition crlf : string :=
  String (Ascii.ascii_of_nat 13) (String (Ascii.ascii_of_nat 10) EmptyString).

(** The [try] block of [run], lines 196-210. *)
Definition run_dispatch (fuel : nat) : Py bool :=
  gl <- get_g ;;
  let pathitems := parse_path (REQUEST_PATH gl) in
  cancel_playback <-
    (if IS_ADDON_FIRSTRUN gl then
       upgrade <- call EvCheckAddonUpgrade (check_addon_upgrade env) ;;
       let '(is_first_run_install, cancel_playback) := upgrade in
       (if is_first_run_install : bool
        then call EvRunAddonConfiguration (run_addon_configuration env)
        else ret tt) ;;
       ret cancel_playback
     else ret false) ;;
  gl' <- get_g ;;
  if cancel_playback && existsb (String.eqb (MODE_PLAY gl')) (firstn 1 pathitems)
  then ret false
  else route fuel pathitems.

(** The [except] clauses of [run], lines 211-240, in their order.  The last
    one, [except Exception], matches what the others do not, but not an
    exception that derives from [BaseException] only: that one no clause
    matches. *)
Definition run_except (e : exn) : option (Py bool) :=
  match cls e with
  | BackendNotReady =>
      Some (emit (EvShowBackendNotReady (Some (py2_decode env (exn_msg e)))) ;;
            ret false)
  | InputStreamHelperError =>
      Some (emit (EvShowOkDialog "InputStream Helper Add-on error"
                    ("The operation has been cancelled." ++ crlf
                     ++ "InputStream Helper has generated an internal error:" ++ crlf
                     ++ exn_msg e ++ crlf ++ crlf
                     ++ "Please report it to InputStream Helper github.")) ;;
            ret false)
  | HttpError401 =>
      Some (title <- read (get_local_string env 30105) ;;
            emit (EvShowOkDialog title
                    ("There was a communication problem with Netflix." ++ crlf
                     ++ "You can try the operation again or exit.")) ;;
            ret false)
  | MbrStatusNeverMemberError | MbrStatusFormerMemberError =>
      Some (title <- read (get_local_string env 30008) ;;
            message <- read (get_local_string env 30180) ;;
            emit (EvShowErrorInfo title message false true) ;;
            ret false)
  | SystemExit | KeyboardInterrupt | GeneratorExit => None
  | _ =>
      Some (error (py2_decode env (format_exc env e)) [] ;;
            emit (EvShowAddonErrorInfo e) ;;
            ret false)
  end.

(** The first part of [run(argv)], lines 168-193, which no [try] covers: the
    result is the value of the local [success] when line 194 is reached. *)
Definition run_startup (fuel : nat) (argv : list string) : Py bool :=
  gl <- query (EvInitGlobals argv) (init_globals env argv) ;;
  put_g gl ;;
  emit EvResetLogLevel ;;
  info ("Started (Version " ++ VERSION_RAW gl ++ ")") [] ;;
  info ("URL is " ++ URL gl) [] ;;
  profile <- read (get_current_kodi_profile_name env) ;;
  let prop_nf_service_status := py2_encode env ("nf_service_status_" ++ profile) in
  is_external_call <- _check_addon_external_call fuel prop_nf_service_status ;;
  service_status <- _get_service_status prop_nf_service_status ;;
  status <- lift (py_get service_status "status") ;;
  if negb (py_eq_str status "running") then
    (if negb is_external_call then
       status' <- lift (py_get service_status "status") ;;
       if py_eq_str status' "error" then
         title <- read (get_local_string env 30105) ;;
         template <- read (get_local_string env 30240) ;;
         message <- lift (py_get service_status "message") ;;
         emit (EvShowErrorInfo title (str_format env template message) false false)
       else emit (EvShowBackendNotReady None)
     else ret tt) ;;
    ret false
  else ret true.

(** [run(argv)], lines 163-245.  Python's [run] returns [None]; the model
    returns the last value of the local [success]. *)
Definition run (fuel : nat) (argv : list string) : Py bool :=
  success <- run_startup fuel argv ;;
  success <-
    (if success : bool then try_except (run_dispatch fuel) run_except
     else ret success) ;;
  (if negb success
   then gl <- get_g ;; emit (EvEndOfDirectory (PLUGIN_HANDLE gl) false)
   else ret tt) ;;
  emit EvLogTimeTrace ;;
  ret success.

End RunAddon.

(** ** A scripted stand-in for the collaborators

    To run the module on a concrete invocation the collaborators are played
    by a script: each stateful collaborator answers with the next entry of
    its list, and with a fixed default once the list is used up. *)

Module Script.

(** A handler instance, or the member [name] of one. *)
Record PyObject : Type := Obj { obj_class : nav_handler; member : option string }.

Record World : Type := {
  (* answers of [check_credentials()]; then [True] *)
  credentials : list (result bool);
  (* answers of [login(...)]; then [True] *)
  logins : list (result bool);
  (* answers of the function under [lazy_login], of [play], [play_strm]
     and of the actions; then a normal return *)
  calls : list (result bool);
  (* the public methods of a handler class *)
  members : nav_handler -> list string;
  (* a handler class whose constructor raises *)
  broken_constructor : option (nav_handler * exn);
  (* the properties of the home window *)
  window_properties : gmap string string;
  (* what the background service writes while the add-on sleeps, one entry
     per [waitForAbort] *)
  service_writes : list (string * string);
  plugin_name : string;
  is_media : bool;
  abort : bool;
  (* the answer of the upgrade check *)
  upgrade : bool * bool;
  (* the message of the error the configuration wizard ends in, if any *)
  configuration : option string;
  profile_name : string;
  globals : Globals
}.

Definition with_credentials (l : list (result bool)) (w : World) : World :=
  {| credentials := l; logins := logins w; calls := calls w; members := members w;
     broken_constructor := broken_constructor w;
     window_properties := window_properties w; service_writes := service_writes w;
     plugin_name := plugin_name w; is_media := is_media w; abort := abort w;
     upgrade := upgrade w; configuration := configuration w;
     profile_name := profile_name w; globals := globals w |}.

Definition with_logins (l : list (result bool)) (w : World) : World :=
  {| credentials := credentials w; logins := l; calls := calls w; members := members w;
     broken_constructor := broken_constructor w;
     window_properties := window_properties w; service_writes := service_writes w;
     plugin_name := plugin_name w; is_media := is_media w; abort := abort w;
     upgrade := upgrade w; configuration := configuration w;
     profile_name := profile_name w; globals := globals w |}.

Definition with_calls (l : list (result bool)) (w : World) : World :=
  {| credentials := credentials w; logins := logins w; calls := l; members := members w;
     broken_constructor := broken_constructor w;
     window_properties := window_properties w; service_writes := service_writes w;
     plugin_name := plugin_name w; is_media := is_media w; abort := abort w;
     upgrade := upgrade w; configuration := configuration w;
     profile_name := profile_name w; globals := globals w |}.

Definition with_properties (props : gmap string string) (writes : list (string * string))
    (w : World) : World :=
  {| credentials := credentials w; logins := logins w; calls := calls w; members := members w;
     broken_constructor := broken_constructor w;
     window_properties := props; service_writes := writes;
     plugin_name := plugin_name w; is_media := is_media w; abort := abort w;
     upgrade := upgrade w; configuration := configuration w;
     profile_name := profile_name w; globals := globals w |}.

Definition next {A : Type} (d : A) (l : list A) : A * list A :=
  match l with
  | [] => (d, [])
  | a :: l' => (a, l')
  end.

Definition next_call (w : World) : result bool * World :=
  let (r, l) := next (Ok true) (calls w) in (r, with_calls l w).

Definition next_unit (w : World) : result unit * World :=
  match next_call w with
  | (Ok _, w') => (Ok tt, w')
  | (Err e, w') => (Err e, w')
  end.

Definition class_name (h : nav_handler) : string :=
  match h with
  | Directory => "Directory"
  | AddonActionExecutor => "AddonActionExecutor"
  | LibraryActionExecutor => "LibraryActionExecutor"
  | HubBrowser => "HubBrowser"
  end.

Definition nav_handler_eqb (a b : nav_handler) : bool :=
  match a, b with
  | Directory, Directory | AddonActionExecutor, AddonActionExecutor
  | LibraryActionExecutor, LibraryActionExecutor | HubBrowser, HubBrowser => true
  | _, _ => false
  end.

(** The documents [loads] of the script decodes: [{"status": "running"}],
    [{"status": "error", "message": "X"}] and [[]]; it refuses every other
    string, as [json.loads] refuses a string that is not JSON. *)
Definition quoted (s : string) : string :=
  String (Ascii.ascii_of_nat 34) s +:+ String (Ascii.ascii_of_nat 34) EmptyString.

Definition doc_running : string :=
  "{" +:+ quoted "status" +:+ ": " +:+ quoted "running" +:+ "}".

Definition doc_error : string :=
  "{" +:+ quoted "status" +:+ ": " +:+ quoted "error" +:+ ", "
  +:+ quoted "message" +:+ ": " +:+ quoted "X" +:+ "}".

Definition kodi : Collaborators World PyObject.
Proof.
  refine {|
  check_credentials w :=
    let (r, l) := next (Ok true) (credentials w) in (r, with_credentials l w);
  login _ w :=
    let (r, l) := next (Ok true) (logins w) in (r, with_logins l w);
  play _ w := next_unit w;
  play_strm _ w := next_unit w;
  instantiate h _ w :=
    match broken_constructor w with
    | Some (h', e) => if nav_handler_eqb h h' then (Err e, w) else (Ok (Obj h None), w)
    | None => (Ok (Obj h None), w)
    end;
  getattribute o name w :=
    if existsb (String.eqb name) (members w (obj_class o))
    then (Ok (Obj (obj_class o) (Some name)), w)
    else (Err (Exn AttributeError
                 ("'" +:+ class_name (obj_class o) +:+ "' object has no attribute '"
                  +:+ name +:+ "'")), w);
  attr_name o :=
    match member o with
    | Some name => Ok name
    | None => Err (Exn AttributeError "__name__")
    end;
  invoke _ _ w := next_unit w;
  getProperty key w := (Ok (default "" (window_properties w !! key)), w);
  loads doc :=
    if String.eqb doc doc_running then Ok (PyDict {[ "status" := PyStr "running" ]})
    else if String.eqb doc doc_error then
      Ok (PyDict {[ "status" := PyStr "error"; "message" := PyStr "X" ]})
    else if String.eqb doc "[]" then Ok (PyList [])
    else Err (Exn ValueError "No JSON object could be decoded");
  getInfoLabel _ w := plugin_name w;
  getCondVisibility _ w := is_media w;
  abortRequested w := (abort w, w);
  waitForAbort _ w :=
    match service_writes w with
    | [] => (abort w, w)
    | (key, value) :: writes =>
        (abort w, with_properties (<[key := value]> (window_properties w)) writes w)
    end;
  init_globals _ w := (globals w, w);
  get_current_kodi_profile_name w := profile_name w;
  get_local_string id _ :=
    if Z.eqb id 30240 then "Background services error: {}" else "Netflix";
  py2_encode s := s;
  py2_decode s := s;
  str_format template arg :=
    template +:+ match arg with PyStr s => s | _ => py_type_name arg end;
  format_exc e := "Traceback (most recent call last): " +:+ exn_msg e;
  check_addon_upgrade w := (Ok (upgrade w), w);
  run_addon_configuration w :=
    match configuration w with
    | None => (Ok tt, w)
    | Some msg => (Err (Exn (OtherError "RuntimeError") msg), w)
    end;
  output _ w := w
|}.
  - intros key w w' e H. discriminate H.
  - intros doc e H.
    destruct (String.eqb doc doc_running); [discriminate H |].
    destruct (String.eqb doc doc_error); [discriminate H |].
    destruct (String.eqb doc "[]"); [discriminate H |].
    injection H as <-. reflexivity.
  - intros w w' e H. discriminate H.
  - intros w w' e H. destruct (configuration w); [| discriminate H].
    injection H as <- _. reflexivity.
Defined.

End Script.

(** ** Concrete invocations *)

Module Example.
Import Script.

(** [g] after [init_globals] for a request of [path].  The mode names are
    the path segments of the add-on's URLs. *)
Definition netflix_globals (path : string) (first_run : bool) : Globals := {|
  MODE_DIRECTORY := "directory";
  MODE_ACTION := "action";
  MODE_LIBRARY := "library";
  MODE_HUB := "hub";
  MODE_PLAY := "play";
  MODE_PLAY_STRM := "play_strm";
  REQUEST_PATH := path;
  REQUEST_PARAMS := ∅;
  IS_ADDON_FIRSTRUN := first_run;
  IS_ADDON_EXTERNAL_CALL := false;
  PLUGIN_HANDLE := 1;
  VERSION_RAW := "1.0.0";
  URL := "plugin://plugin.video.netflix/" +:+ path;
  ADDON_ID := "plugin.video.netflix"
|}.

Definition status_key : string := "nf_service_status_Master user".

(** The user browses the add-on, the service runs, the credentials are
    stored: nothing fails. *)
Definition browsing (path : string) : World := {|
  credentials := [];
  logins := [];
  calls := [];
  members := fun _ => ["root"];
  broken_constructor := None;
  window_properties := {[ status_key := doc_running ]};
  service_writes := [];
  plugin_name := "plugin.video.netflix";
  is_media := true;
  abort := false;
  upgrade := (false, false);
  configuration := None;
  profile_name := "Master user";
  globals := netflix_globals path false
|}.

(** The same, with the status property holding [status] ([None]: not set). *)
Definition with_status (status : option string) (w : World) : World :=
  with_properties
    (match status with Some doc => {[ status_key := doc ]} | None => ∅ end) [] w.

(** A skin widget calls the add-on while the service never comes up. *)
Definition widget (path : string) : World := {|
  credentials := [];
  logins := [];
  calls := [];
  members := fun _ => ["root"];
  broken_constructor := None;
  window_properties := ∅;
  service_writes := [];
  plugin_name := "";
  is_media := false;
  abort := false;
  upgrade := (false, false);
  configuration := None;
  profile_name := "Master user";
  globals := netflix_globals path false
|}.

(** The first run after an upgrade: the upgrade check asks to cancel
    playback. *)
Definition upgraded (path : string) : World := {|
  credentials := [];
  logins := [];
  calls := [];
  members := fun _ => ["root"];
  broken_constructor := None;
  window_properties := {[ status_key := doc_running ]};
  service_writes := [];
  plugin_name := "plugin.video.netflix";
  is_media := true;
  abort := false;
  upgrade := (false, true);
  configuration := None;
  profile_name := "Master user";
  globals := netflix_globals path true
|}.

(** The constructor of the library handler raises [AttributeError]. *)
Definition broken_library (path : string) : World := {|
  credentials := [];
  logins := [];
  calls := [];
  members := fun _ => ["root"];
  broken_constructor :=
    Some (LibraryActionExecutor,
          Exn AttributeError "'NoneType' object has no attribute 'get'");
  window_properties := {[ status_key := doc_running ]};
  service_writes := [];
  plugin_name := "plugin.video.netflix";
  is_media := true;
  abort := false;
  upgrade := (false, false);
  configuration := None;
  profile_name := "Master user";
  globals := netflix_globals path false
|}.

Definition session_expired : exn := Exn NotLoggedInError "session expired".
Definition still_expired : exn := Exn NotLoggedInError "session still expired".

(** The session has expired, the login succeeds, the session is refused
    again. *)
Definition expired_twice : World :=
  with_calls [Err session_expired; Err still_expired] (browsing "").

(** The session has expired and the login answers [False]. *)
Definition login_refused : World :=
  with_calls [Err session_expired] (with_logins [Ok false] (browsing "")).

(** A function under [lazy_login]: a collaborator played by the script. *)
Definition list_profiles (_ : unit) : M World bool :=
  call (EvCall "list_profiles") next_call.

Definition start (w : World) : state World := State w (globals w) [].

Definition with_broken_constructor (broken : option (nav_handler * exn)) (w : World) : World :=
  {| credentials := credentials w; logins := logins w; calls := calls w; members := members w;
     broken_constructor := broken;
     window_properties := window_properties w; service_writes := service_writes w;
     plugin_name := plugin_name w; is_media := is_media w; abort := abort w;
     upgrade := upgrade w; configuration := configuration w;
     profile_name := profile_name w; globals := globals w |}.

Definition with_abort (b : bool) (w : World) : World :=
  {| credentials := credentials w; logins := logins w; calls := calls w; members := members w;
     broken_constructor := broken_constructor w;
     window_properties := window_properties w; service_writes := service_writes w;
     plugin_name := plugin_name w; is_media := is_media w; abort := b;
     upgrade := upgrade w; configuration := configuration w;
     profile_name := profile_name w; globals := globals w |}.

Definition prompt_left : exn := Exn MissingCredentialsError "".

(** No stored credentials; the user mistypes the password twice and then
    leaves the prompt. *)
Definition two_typos_then_cancel : World :=
  with_credentials [Ok false; Ok false; Ok false]
    (with_logins [Ok false; Ok false; Err prompt_left] (browsing "")).

(** No stored credentials; the user mistypes the password once. *)
Definition one_typo : World :=
  with_credentials [Ok false; Ok false] (with_logins [Ok false; Ok true] (browsing "")).

(** The credential store itself raises [MissingCredentialsError]. *)
Definition store_empty : World := with_credentials [Err prompt_left] (browsing "").

(** The wrapped function raises [MissingCredentialsError], at once or after
    a recovered session. *)
Definition missing_at_once : World := with_calls [Err prompt_left] (browsing "").
Definition missing_on_retry : World :=
  with_calls [Err session_expired; Err prompt_left] (browsing "").

(** No stored credentials and a first login that ends in a validation
    error. *)
Definition login_invalid : World :=
  with_credentials [Ok false; Ok true]
    (with_logins [Err (Exn LoginValidateError "no session data"); Ok true] (browsing "")).

(** The action raises [AttributeError] while it runs. *)
Definition action_fails : World :=
  with_calls [Err (Exn AttributeError "'NoneType' object has no attribute 'items'")]
    (browsing "library/root").

(** The action calls [sys.exit(0)]. *)
Definition action_exits : World := with_calls [Err (Exn SystemExit "0")] (browsing "").

(** The constructor of the library handler raises a [KeyError]. *)
Definition constructor_key_error : World :=
  with_broken_constructor
    (Some (LibraryActionExecutor, Exn (OtherError "KeyError") "'library'"))
    (browsing "library/export").

(** What holds of the world while the service stays down. *)
Definition service_down (w : World) : Prop :=
  window_properties w !! status_key = None /\ service_writes w = [] /\ abort w = false.

End Example.

(** ** Vocabulary of the properties *)

(** [sub in s]: a message names a path when the path occurs in it. *)
Definition contains (sub s : string) : Prop :=
  exists pre post : string, s = pre +:+ sub +:+ post.

Fixpoint containsb (sub s : string) : bool :=
  String.prefix sub s
  || match s with
     | EmptyString => false
     | String _ s' => containsb sub s'
     end.

(** The events a computation adds to the trace. *)
Definition emits {W A : Type} (m : M W A) (s : state W) (evs : list event) : Prop :=
  trace (snd (m s)) = trace s ++ evs.

(** The root segments [route] knows, lines 71-101. *)
Definition recognized (gl : Globals) : list string :=
  [MODE_PLAY gl; MODE_PLAY_STRM gl; "extrafanart"; MODE_DIRECTORY gl;
   MODE_ACTION gl; MODE_LIBRARY gl; MODE_HUB gl].

(** The calls that instantiate or run a handler. *)
Definition handler_event (ev : event) : bool :=
  match ev with
  | EvPlay _ | EvPlayStrm _ | EvInstantiate _ | EvGetAttribute _ | EvInvoke _ => true
  | _ => false
  end.

(** The calls [route] makes: those of the login wrapper and of the handlers,
    and the router's own log lines. *)
Definition routing_event (ev : event) : bool :=
  match ev with
  | EvCheckCredentials | EvLogin _ => true
  | EvLog LDebug msg _ => String.eqb msg "Routing navigation request"
  | _ => handler_event ev
  end.

(** [adds_only P m]: whatever the state, [m] appends events to the trace and
    every event it appends satisfies [P]. *)
Definition adds_only {W A : Type} (P : event -> Prop) (m : M W A) : Prop :=
  forall s : state W, exists evs : list event,
    trace (snd (m s)) = trace s ++ evs /\ Forall P evs.

Definition is_end_of_directory (ev : event) : bool :=
  match ev with EvEndOfDirectory _ _ => true | _ => false end.

(** The dialogs of [resources.lib.kodi.ui]. *)
Definition is_dialog (ev : event) : bool :=
  match ev with
  | EvShowErrorInfo _ _ _ _ | EvShowBackendNotReady _ | EvShowOkDialog _ _
  | EvShowAddonErrorInfo _ => true
  | _ => false
  end.

(** The calls of a function under [lazy_login], and the logins of the
    wrapper's recovery (line 56), which pass [ask_credentials]. *)
Definition is_call (ev : event) : bool :=
  match ev with EvCall _ => true | _ => false end.

Definition is_recovery_login (ev : event) : bool :=
  match ev with EvLogin (Some _) => true | _ => false end.

Definition wrapped_calls (evs : list event) : nat := length (List.filter is_call evs).
Definition recovery_logins (evs : list event) : nat :=
  length (List.filter is_recovery_login evs).

(** What the caller of a collaborator sees of its answer. *)
Definition outcome_of {A : Type} (r : result A) : outcome A :=
  match r with
  | Ok a => Ret a
  | Err e => Raise e
  end.

(** What [_check_valid_credentials] makes of the answer of the last login
    prompt, one that does not answer [False] (lines 31-37). *)
Definition prompt_outcome (r : result bool) : outcome bool :=
  match r with
  | Ok _ => Ret true
  | Err e =>
      match cls e with
      | MissingCredentialsError => Ret false
      | _ => Raise e
      end
  end.

(** The events of [k] login prompts. *)
Fixpoint prompts (k : nat) : list event :=
  match k with
  | O => []
  | S k' => EvCheckCredentials :: EvLogin None :: prompts k'
  end.

(** The calls of the upgrade controller and of the configuration wizard. *)
Definition is_upgrade_event (ev : event) : bool :=
  match ev with EvCheckAddonUpgrade | EvRunAddonConfiguration => true | _ => false end.

(** A path segment as line 197 keeps it: not empty, and without [/]. *)
Fixpoint has_slash (s : string) : bool :=
  match s with
  | EmptyString => false
  | String c rest => Ascii.eqb c "/"%char || has_slash rest
  end.

Definition segment (s : string) : bool := negb (String.eqb s "") && negb (has_slash s).

(** The status polls and the sleeps of the wait loop. *)
Definition is_poll (ev : event) : bool :=
  match ev with EvGetProperty _ => true | _ => false end.

Definition is_wait (ev : event) : bool :=
  match ev with EvWaitForAbort _ => true | _ => false end.

Definition polls (evs : list event) : nat := length (List.filter is_poll evs).
Definition waits (evs : list event) : nat := length (List.filter is_wait evs).

(** [ceil(timeout / interval) + 1]. *)
Definition max_polls : nat := Z.to_nat (Qceiling (limit_sec / poll_interval)) + 1.

Section Vocabulary.

Context {W PyObject : Type}.
Variable env : Collaborators W PyObject.

(** The state a log, dialog or plugin call leaves. *)
Definition after (ev : event) (s : state W) : state W :=
  record ev s (output env ev (world s)).

(** The state [route]'s first line leaves. *)
Definition routing (s : state W) : state W :=
  after (EvLog LDebug "Routing navigation request" []) s.

(** One round of a wrong password in [_check_valid_credentials]: no stored
    credentials, the login answers [False] (lines 28-33). *)
Definition wrong_password (s : state W) : option (state W) :=
  match check_credentials env (world s) with
  | (Ok false, w1) =>
      match login env None w1 with
      | (Ok false, w2) => Some (record (EvLogin None) (record EvCheckCredentials s w1) w2)
      | _ => None
      end
  | _ => None
  end.

Fixpoint wrong_passwords (k : nat) (s : state W) : option (state W) :=
  match k with
  | O => Some s
  | S k' =>
      match wrong_password s with
      | Some s' => wrong_passwords k' s'
      | None => None
      end
  end.

(** The state [run] has reached at line 178, after [init_globals] and the
    log lines. *)
Definition booted (argv : list string) (s : state W) : state W :=
  let (gl, w) := init_globals env argv (world s) in
  after (EvLog LInfo ("URL is " +:+ URL gl) [])
    (after (EvLog LInfo ("Started (Version " +:+ VERSION_RAW gl +:+ ")") [])
       (after EvResetLogLevel (State w gl (trace s ++ [EvInitGlobals argv])))).

(** The name of the status property, line 178. *)
Definition status_property (s : state W) : string :=
  py2_encode env ("nf_service_status_" +:+ get_current_kodi_profile_name env (world s)).

(** Whether the guard takes the invocation for an external call, line 150. *)
Definition looks_external (s : state W) : bool :=
  negb (String.eqb (getInfoLabel env "Container.PluginName" (world s)) (ADDON_ID (g s)))
  || negb (getCondVisibility env "Window.IsMedia" (world s)).

End Vocabulary.

(** * Properties *)

Section Properties.

Context {W PyObject : Type}.
Variable env : Collaborators W PyObject.

Lemma eqb_false_of_neq (a b : string) : a <> b -> String.eqb a b = false.
Proof. intros H. apply String.eqb_neq. exact H. Qed.

Lemma get_nav_handler_unknown (gl : Globals) (root : string) :
  root <> MODE_DIRECTORY gl -> root <> MODE_ACTION gl ->
  root <> MODE_LIBRARY gl -> root <> MODE_HUB gl ->
  _get_nav_handler gl root = None.
Proof.
  intros Hd Ha Hl Hh. unfold _get_nav_handler.
  rewrite (eqb_false_of_neq _ _ Hd), (eqb_false_of_neq _ _ Ha),
          (eqb_false_of_neq _ _ Hl), (eqb_false_of_neq _ _ Hh).
  reflexivity.
Qed.

Lemma not_recognized_inv (gl : Globals) (root : string) :
  ~ In root (recognized gl) ->
  root <> MODE_PLAY gl /\ root <> MODE_PLAY_STRM gl /\ root <> "extrafanart"
  /\ root <> MODE_DIRECTORY gl /\ root <> MODE_ACTION gl
  /\ root <> MODE_LIBRARY gl /\ root <> MODE_HUB gl.
Proof.
  unfold recognized. simpl. intros H.
  repeat split; intros ->; apply H; tauto.
Qed.

(** The login wrapper when the stored credentials are valid and the wrapped
    function does not raise a session failure: one credential check, one
    call. *)
Lemma lazy_login_valid {A : Type} (name : string) (func : A -> M W bool)
    (fuel : nat) (args : A) (s : state W) (w : W) :
  check_credentials env (world s) = (Ok true, w) ->
  (forall e s', func args (record EvCheckCredentials s w) = (Raise e, s') ->
                session_invalid (cls e) = false) ->
  lazy_login env name func (S fuel) args s = func args (record EvCheckCredentials s w).
Proof.
  intros Hc Hf. unfold lazy_login, try_except, bind. simpl.
  unfold bind, call. rewrite Hc. simpl. unfold ret.
  destruct (func args (record EvCheckCredentials s w)) as [[b | e |] s'] eqn:E; try reflexivity.
  rewrite (Hf e s' eq_refl). reflexivity.
Qed.

Lemma route_wrapped_start (pathitems : list string) (s : state W) :
  route_wrapped env pathitems s
  = (let gl := g s in
     let root_handler := match pathitems with item :: _ => item | [] => MODE_DIRECTORY gl end in
     if String.eqb root_handler (MODE_PLAY gl) then
       bind (call (EvPlay (tail pathitems)) (play env (tail pathitems)))
            (fun _ => ret true)
     else if String.eqb root_handler (MODE_PLAY_STRM gl) then
       bind (call (EvPlayStrm (tail pathitems)) (play_strm env (tail pathitems)))
            (fun _ => ret true)
     else if String.eqb root_handler "extrafanart" then
       bind (warn env "Route: ignoring extrafanart invocation" []) (fun _ => ret false)
     else
       match _get_nav_handler gl root_handler with
       | None => raise InvalidPathError ("No root handler for path " ++ join_path pathitems)
       | Some nav_handler =>
           bind (_execute env nav_handler (tail pathitems) (REQUEST_PARAMS gl))
                (fun _ => ret true)
       end) (routing env s).
Proof.
  unfold route_wrapped, bind, debug, emit, get_g, routing, after. simpl.
  destruct (String.eqb _ (MODE_PLAY (g s))); [reflexivity |].
  destruct (String.eqb _ (MODE_PLAY_STRM (g s))); [reflexivity |].
  destruct (String.eqb _ "extrafanart"); [reflexivity |].
  destruct (_get_nav_handler (g s) _); reflexivity.
Qed.

(** C9.  A path under the reserved segment [extrafanart] is ignored: the
    router logs a warning and answers [False]; it instantiates no handler and
    raises nothing.  The same holds through the login wrapper once the stored
    credentials are found valid. *)
Theorem route_extrafanart_ignored (rest : list string) (s : state W) :
  MODE_PLAY (g s) <> "extrafanart" ->
  MODE_PLAY_STRM (g s) <> "extrafanart" ->
  let ignored := EvLog LWarn "Route: ignoring extrafanart invocation" [] in
  route_wrapped env ("extrafanart" :: rest) s = (Ret false, after env ignored (routing env s))
  /\ (forall (fuel : nat) (w : W),
        check_credentials env (world s) = (Ok true, w) ->
        let s1 := record EvCheckCredentials s w in
        route env (S fuel) ("extrafanart" :: rest) s
        = (Ret false, after env ignored (routing env s1))
        /\ Forall (fun ev => handler_event ev = false)
                  [EvCheckCredentials; EvLog LDebug "Routing navigation request" []; ignored]
        /\ emits (route env (S fuel) ("extrafanart" :: rest)) s
                 [EvCheckCredentials; EvLog LDebug "Routing navigation request" []; ignored]).
Proof.
  intros Hplay Hstrm ignored.
  assert (Hbody : forall s0 : state W, g s0 = g s ->
            route_wrapped env ("extrafanart" :: rest) s0
            = (Ret false, after env ignored (routing env s0))).
  { intros s0 Hg. rewrite route_wrapped_start. cbv beta iota zeta. rewrite Hg.
    rewrite (eqb_false_of_neq _ _ (not_eq_sym Hplay)).
    rewrite (eqb_false_of_neq _ _ (not_eq_sym Hstrm)).
    reflexivity. }
  split; [apply Hbody; reflexivity |].
  intros fuel w Hc s1.
  assert (Hroute : route env (S fuel) ("extrafanart" :: rest) s
                   = (Ret false, after env ignored (routing env s1))).
  { unfold route. rewrite (lazy_login_valid "route" _ fuel _ s w Hc).
    - apply Hbody. reflexivity.
    - intros e s' He. rewrite Hbody in He by reflexivity. discriminate. }
  split; [exact Hroute |]. split.
  - repeat constructor.
  - unfold emits. rewrite Hroute. simpl. rewrite <- !app_assoc. reflexivity.
Qed.

Lemma contains_suffix (pre sub : string) : contains sub (pre +:+ sub).
Proof.
  exists pre, EmptyString. f_equal.
  induction sub as [| c sub IH]; [reflexivity |].
  change (String c sub +:+ "") with (String c (sub +:+ "")). f_equal. exact IH.
Qed.

(** C5.  A path whose root segment is none of the segments the router knows
    makes the router raise [InvalidPathError]; the message ends with the
    segments of the path joined by [/].  The login wrapper lets the error
    through. *)
Theorem route_unknown_root (root : string) (rest : list string) (s : state W) :
  ~ In root (recognized (g s)) ->
  let path := join_path (root :: rest) in
  let failure := Exn InvalidPathError ("No root handler for path " +:+ path) in
  route_wrapped env (root :: rest) s = (Raise failure, routing env s)
  /\ contains path (exn_msg failure)
  /\ (forall (fuel : nat) (w : W),
        check_credentials env (world s) = (Ok true, w) ->
        route env (S fuel) (root :: rest) s
        = (Raise failure, routing env (record EvCheckCredentials s w))).
Proof.
  intros Hroot path failure.
  destruct (not_recognized_inv _ _ Hroot) as (Hp & Hs & Hx & Hd & Ha & Hl & Hh).
  assert (Hbody : forall s0 : state W, g s0 = g s ->
            route_wrapped env (root :: rest) s0 = (Raise failure, routing env s0)).
  { intros s0 Hg. rewrite route_wrapped_start. cbv beta iota zeta. rewrite Hg.
    rewrite (eqb_false_of_neq _ _ Hp), (eqb_false_of_neq _ _ Hs),
            (eqb_false_of_neq _ _ Hx).
    rewrite (get_nav_handler_unknown _ _ Hd Ha Hl Hh). reflexivity. }
  split; [apply Hbody; reflexivity |]. split.
  - apply contains_suffix.
  - intros fuel w Hc. unfold route.
    rewrite (lazy_login_valid "route" _ fuel _ s w Hc).
    + apply Hbody. reflexivity.
    + intros e s' He. rewrite Hbody in He by reflexivity.
      injection He as <- _. reflexivity.
Qed.

(** [_execute] when the handler is built and the lookup of the action
    raises [AttributeError]. *)
Lemma execute_unknown_action (executor_type : nav_handler) (pathitems : list string)
    (params : gmap string string) (s : state W) (instance : PyObject) (w1 w2 : W) (e : exn) :
  let name := match pathitems with item :: _ => item | [] => "root" end in
  instantiate env executor_type params (world s) = (Ok instance, w1) ->
  getattribute env instance name w1 = (Err e, w2) ->
  cls e = AttributeError ->
  _execute env executor_type pathitems params s
  = (Raise (Exn InvalidPathError ("Unknown action " +:+ join_path pathitems)),
     record (EvGetAttribute name) (record (EvInstantiate executor_type) s w1) w2).
Proof.
  intros name Hi Hg Hc. unfold _execute, bind, try_except, call. rewrite Hi. simpl.
  fold name. rewrite Hg. rewrite Hc. reflexivity.
Qed.

(** [_execute] when the constructor of the handler raises [AttributeError]. *)
Lemma execute_constructor_fails (executor_type : nav_handler) (pathitems : list string)
    (params : gmap string string) (s : state W) (w1 : W) (e : exn) :
  instantiate env executor_type params (world s) = (Err e, w1) ->
  cls e = AttributeError ->
  _execute env executor_type pathitems params s
  = (Raise (Exn InvalidPathError ("Unknown action " +:+ join_path pathitems)),
     record (EvInstantiate executor_type) s w1).
Proof.
  intros Hi Hc. unfold _execute, bind, try_except, call. rewrite Hi. rewrite Hc.
  reflexivity.
Qed.

(** C10.  The [try] of [_execute] covers the constructor of the handler: an
    [AttributeError] raised while the handler is built becomes the
    [InvalidPathError] "Unknown action ..." that a missing action gives, with
    the same message. *)
Theorem execute_constructor_error_masked (executor_type : nav_handler)
    (pathitems : list string) (params : gmap string string)
    (s : state W) (w1 : W) (e : exn) :
  instantiate env executor_type params (world s) = (Err e, w1) ->
  cls e = AttributeError ->
  let failure := Exn InvalidPathError ("Unknown action " +:+ join_path pathitems) in
  fst (_execute env executor_type pathitems params s) = Raise failure
  /\ (forall (s' : state W) (instance : PyObject) (w1' w2' : W) (e' : exn),
        instantiate env executor_type params (world s') = (Ok instance, w1') ->
        getattribute env instance
          (match pathitems with item :: _ => item | [] => "root" end) w1' = (Err e', w2') ->
        cls e' = AttributeError ->
        fst (_execute env executor_type pathitems params s')
        = fst (_execute env executor_type pathitems params s)).
Proof.
  intros Hi Hc failure. split.
  - rewrite (execute_constructor_fails _ _ _ _ _ _ Hi Hc). reflexivity.
  - intros s' instance w1' w2' e' Hi' Hg' Hc'.
    rewrite (execute_unknown_action _ _ _ _ _ _ _ _ Hi' Hg' Hc').
    rewrite (execute_constructor_fails _ _ _ _ _ _ Hi Hc). reflexivity.
Qed.

(** C4, as the code has it.  When the root segment selects a handler and the
    handler has no member named by the second segment, the router raises
    [InvalidPathError] with the message "Unknown action " followed by the
    segments after the root segment, joined by [/]: the root segment is not
    part of the message. *)
Theorem route_unknown_action (root action : string) (rest : list string)
    (s : state W) (nav : nav_handler) (instance : PyObject) (w1 w2 : W) (e : exn) :
  root <> MODE_PLAY (g s) ->
  root <> MODE_PLAY_STRM (g s) ->
  root <> "extrafanart" ->
  _get_nav_handler (g s) root = Some nav ->
  instantiate env nav (REQUEST_PARAMS (g s)) (world (routing env s)) = (Ok instance, w1) ->
  getattribute env instance action w1 = (Err e, w2) ->
  cls e = AttributeError ->
  route_wrapped env (root :: action :: rest) s
  = (Raise (Exn InvalidPathError ("Unknown action " +:+ join_path (action :: rest))),
     record (EvGetAttribute action) (record (EvInstantiate nav) (routing env s) w1) w2).
Proof.
  intros Hp Hs Hx Hnav Hi Hg Hc.
  rewrite route_wrapped_start. cbv beta iota zeta.
  rewrite (eqb_false_of_neq _ _ Hp), (eqb_false_of_neq _ _ Hs), (eqb_false_of_neq _ _ Hx).
  rewrite Hnav. unfold bind.
  change (tail (root :: action :: rest)) with (action :: rest).
  rewrite (execute_unknown_action nav (action :: rest) _ (routing env s) instance w1 w2 e Hi Hg Hc).
  reflexivity.
Qed.

(** C1, as the code has it.  The stored credentials are valid and the first
    call of the wrapped function raises a session failure.  The wrapper then
    logs in once.  When the login answers [True] it calls the wrapped function
    once more: what that call returns the wrapper returns, and what it raises
    the wrapper raises, a second session failure in particular, except a
    [MissingCredentialsError], which the wrapper answers with [False].  When
    the login answers [False] or raises [MissingCredentialsError] the wrapper
    returns [False] and the wrapped function is not called again; any other
    exception of the login leaves the wrapper. *)
Theorem lazy_login_recovery {A : Type} (name : string) (func : A -> M W bool)
    (fuel : nat) (args : A) (s s1 s2 : state W) (e : exn)
    (stored : bool) (w3 w4 : W) (r : result bool) :
  _check_valid_credentials env fuel s = (Ret true, s1) ->
  func args s1 = (Raise e, s2) ->
  session_invalid (cls e) = true ->
  let s3 := after env (EvLog LDebug "Tried to perform an action without being logged in" []) s2 in
  check_credentials env (world s3) = (Ok stored, w3) ->
  login env (Some (negb stored)) w3 = (r, w4) ->
  let s4 := record (EvLogin (Some (negb stored))) (record EvCheckCredentials s3 w3) w4 in
  let s5 := after env (EvLog LDebug "Account logged in, try executing again {}" [PyStr name]) s4 in
  (r = Ok true ->
   lazy_login env name func fuel args s
   = match func args s5 with
     | (Raise e2, s6) =>
         match cls e2 with
         | MissingCredentialsError => (Ret false, s6)
         | _ => (Raise e2, s6)
         end
     | returned => returned
     end)
  /\ (r = Ok true ->
      forall (e2 : exn) (s6 : state W),
        func args s5 = (Raise e2, s6) ->
        session_invalid (cls e2) = true ->
        lazy_login env name func fuel args s = (Raise e2, s6))
  /\ (r = Ok false -> lazy_login env name func fuel args s = (Ret false, s4))
  /\ (forall e1 : exn,
        r = Err e1 ->
        lazy_login env name func fuel args s
        = match cls e1 with
          | MissingCredentialsError => (Ret false, s4)
          | _ => (Raise e1, s4)
          end).
Proof.
  intros Hvalid Hfirst Hkind s3 Hstored Hlogin s4 s5.
  assert (Hstart : lazy_login env name func fuel args s
            = try_except
                (bind (call EvCheckCredentials (check_credentials env))
                   (fun stored0 =>
                      bind (call (EvLogin (Some (negb stored0)))
                              (login env (Some (negb stored0))))
                        (fun logged =>
                           if negb logged then ret false
                           else bind (debug env "Account logged in, try executing again {}"
                                        [PyStr name])
                                  (fun _ => func args))))
                (fun e' => match cls e' with
                           | MissingCredentialsError => Some (ret false)
                           | _ => None
                           end) s3).
  { unfold lazy_login at 1. unfold try_except at 1. unfold bind at 1.
    rewrite Hvalid. cbv beta iota zeta. change (negb true) with false.
    cbv iota. rewrite Hfirst. rewrite Hkind. reflexivity. }
  rewrite Hstart. unfold try_except, bind, call. rewrite Hstored.
  cbv beta iota zeta. change (world (record EvCheckCredentials s3 w3)) with w3.
  rewrite Hlogin.
  split; [| split; [| split]].
  - intros ->. cbv beta iota zeta. change (negb true) with false. cbv iota.
    unfold debug, emit. change (func args _) with (func args s5).
    destruct (func args s5) as [[b | e2 |] s6]; try reflexivity.
    destruct (cls e2); reflexivity.
  - intros -> e2 s6 Hretry Hkind2. cbv beta iota zeta. change (negb true) with false.
    cbv iota. unfold debug, emit.
    change (func args _) with (func args s5). rewrite Hretry.
    destruct (cls e2); try discriminate; reflexivity.
  - intros ->. reflexivity.
  - intros e1 ->. cbv beta iota zeta. destruct (cls e1); reflexivity.
Qed.

(** One probe of the service status: one read of the window property, and a
    value, whatever the read and the decoder do. *)
Lemma get_service_status_returns (prop : string) (s : state W) :
  exists (status : pyvalue) (w : W),
    _get_service_status env prop s = (Ret status, record (EvGetProperty prop) s w).
Proof.
  unfold _get_service_status, try_except, bind, call.
  destruct (getProperty env prop (world s)) as [[doc | e] w] eqn:Hread.
  - destruct (String.eqb doc "").
    + exists (PyDict ∅), w. reflexivity.
    + unfold lift. destruct (loads env doc) as [v | e] eqn:Hloads.
      * exists v, w. reflexivity.
      * exists (PyDict ∅), w. rewrite (loads_error env doc e Hloads). reflexivity.
  - exists (PyDict ∅), w. rewrite (getProperty_error env _ _ _ _ Hread). reflexivity.
Qed.

(** C6.  The status probe never raises.  When the property is not set or
    empty (Kodi answers the empty string for both), when its value is not
    JSON, and when the read itself fails, the probe returns the empty
    mapping. *)
Theorem get_service_status_tolerant (prop : string) (s : state W)
    (r : result string) (w : W) :
  getProperty env prop (world s) = (r, w) ->
  (exists status : pyvalue,
     _get_service_status env prop s = (Ret status, record (EvGetProperty prop) s w))
  /\ (match r with
      | Ok doc => doc = "" \/ exists e : exn, loads env doc = Err e
      | Err _ => True
      end ->
      _get_service_status env prop s = (Ret (PyDict ∅), record (EvGetProperty prop) s w)).
Proof.
  intros Hread. split.
  - destruct (get_service_status_returns prop s) as (status & w' & H).
    exists status. rewrite H. unfold _get_service_status, try_except, bind, call in H.
    rewrite Hread in H.
    assert (Hw : world (snd (Ret status, record (EvGetProperty prop) s w'))
                 = w).
    { rewrite <- H. destruct r as [doc | e].
      - destruct (String.eqb doc ""); [reflexivity |].
        unfold lift. destruct (loads env doc) as [v | e] eqn:Hloads; [reflexivity |].
        rewrite (loads_error env doc e Hloads). reflexivity.
      - rewrite (getProperty_error env _ _ _ _ Hread). reflexivity. }
    simpl in Hw. rewrite Hw. reflexivity.
  - intros Hbad. unfold _get_service_status, try_except, bind, call. rewrite Hread.
    destruct r as [doc | e].
    + destruct Hbad as [-> | [e He]]; [reflexivity |].
      destruct (String.eqb doc ""); [reflexivity |].
      unfold lift. rewrite He. rewrite (loads_error env doc e He). reflexivity.
    + rewrite (getProperty_error env _ _ _ _ Hread). reflexivity.
Qed.

Lemma limit_reached (sec : Q) :
  sec == inject_Z 20 * poll_interval -> Qle_bool limit_sec sec = true.
Proof.
  intros Hsec. apply Qle_bool_iff. rewrite Hsec. unfold Qle. simpl. lia.
Qed.

Lemma next_half_second (k : nat) (sec : Q) :
  sec == inject_Z (Z.of_nat k) * poll_interval ->
  sec + poll_interval == inject_Z (Z.of_nat (S k)) * poll_interval.
Proof.
  intros Hsec. rewrite Hsec. rewrite Nat2Z.inj_succ. unfold Z.succ.
  rewrite inject_Z_plus. ring.
Qed.

(** The loop entered with [sec_elapsed] at [k] half seconds leaves after at
    most [21 - k] polls and [20 - k] sleeps. *)
Lemma wait_for_service_bounded (fuel : nat) :
  forall (k : nat) (prop : string) (sec : Q) (s : state W),
    (k <= 20)%nat -> (21 - k <= fuel)%nat ->
    sec == inject_Z (Z.of_nat k) * poll_interval ->
    exists (out : outcome Q) (s' : state W) (evs : list event),
      wait_for_service env fuel prop sec s = (out, s')
      /\ out <> OutOfFuel
      /\ trace s' = trace s ++ evs
      /\ (polls evs + k <= 21)%nat
      /\ (waits evs + k <= 20)%nat.
Proof.
  induction fuel as [| fuel IH]; intros k prop sec s Hk Hfuel Hsec; [lia |].
  destruct (get_service_status_returns prop s) as (status & w & Hstatus).
  cbn [wait_for_service]. unfold bind at 1. rewrite Hstatus.
  set (s1 := record (EvGetProperty prop) s w).
  unfold bind at 1. unfold lift.
  destruct (py_get status "status") as [value | e].
  2:{ exists (Raise e), s1, [EvGetProperty prop].
      repeat split; [discriminate | unfold polls; cbn; lia | unfold waits; cbn; lia]. }
  destruct (py_eq_str value "running").
  { exists (Ret sec), s1, [EvGetProperty prop].
    repeat split; [discriminate | unfold polls; cbn; lia | unfold waits; cbn; lia]. }
  destruct (Qle_bool limit_sec sec) eqn:Hlimit.
  { exists (Ret sec), s1, [EvGetProperty prop].
    repeat split; [discriminate | unfold polls; cbn; lia | unfold waits; cbn; lia]. }
  assert (Hlt : (k < 20)%nat).
  { destruct (Nat.eq_dec k 20) as [-> | Hne]; [| lia].
    rewrite (limit_reached sec Hsec) in Hlimit. discriminate. }
  unfold bind at 1. unfold query at 1.
  destruct (abortRequested env (world s1)) as [abort w2].
  set (s2 := record EvAbortRequested s1 w2).
  destruct abort.
  { exists (Ret sec), s2, [EvGetProperty prop; EvAbortRequested].
    repeat split; [discriminate | cbn; rewrite <- app_assoc; reflexivity
                   | unfold polls; cbn; lia | unfold waits; cbn; lia]. }
  unfold bind at 1. unfold query at 1.
  destruct (waitForAbort env poll_interval (world s2)) as [aborted w3].
  set (s3 := record (EvWaitForAbort poll_interval) s2 w3).
  destruct aborted.
  { exists (Ret sec), s3, [EvGetProperty prop; EvAbortRequested; EvWaitForAbort poll_interval].
    repeat split; [discriminate | cbn; rewrite <- !app_assoc; reflexivity
                   | unfold polls; cbn; lia | unfold waits; cbn; lia]. }
  destruct (IH (S k) prop (sec + poll_interval)%Q s3 ltac:(lia) ltac:(lia)
              (next_half_second k sec Hsec))
    as (out & s' & evs & Hrun & Hout & Htrace & Hpolls & Hwaits).
  exists out, s', ([EvGetProperty prop; EvAbortRequested; EvWaitForAbort poll_interval] ++ evs).
  split; [exact Hrun |]. split; [exact Hout |]. split.
  - rewrite Htrace. cbn. rewrite <- !app_assoc. reflexivity.
  - unfold polls, waits in *. cbn. split; lia.
Qed.

(** C7.  The wait of the external-call guard ends: with fuel for
    [ceil(timeout / interval) + 1 = 21] rounds the guard returns or raises,
    whatever the service status, the abort flag and the sleeps answer.  It
    polls the status at most 21 times and sleeps at most 20 times, that is
    for at most the 10 seconds of the timeout. *)
Theorem external_call_wait_bounded (fuel : nat) (prop : string) (s : state W) :
  (max_polls <= fuel)%nat ->
  exists (out : outcome bool) (s' : state W) (evs : list event),
    _check_addon_external_call env fuel prop s = (out, s')
    /\ out <> OutOfFuel
    /\ trace s' = trace s ++ evs
    /\ (polls evs <= max_polls)%nat
    /\ (waits evs <= max_polls - 1)%nat
    /\ (inject_Z (Z.of_nat (waits evs)) * poll_interval <= limit_sec)%Q.
Proof.
  intros Hfuel.
  assert (Hmax : max_polls = 21%nat) by reflexivity.
  rewrite Hmax in *.
  assert (Htime : forall n : nat, (n <= 20)%nat ->
            (inject_Z (Z.of_nat n) * poll_interval <= limit_sec)%Q).
  { intros n Hn. unfold Qle. simpl. lia. }
  unfold _check_addon_external_call, bind, get_g, read.
  destruct (negb (String.eqb _ _) || negb _).
  - destruct (wait_for_service_bounded fuel 0 prop 0 s ltac:(lia) ltac:(lia))
      as (out & s' & evs & Hrun & Hout & Htrace & Hpolls & Hwaits).
    { reflexivity. }
    rewrite Hrun. destruct out as [sec | e |].
    + eexists _, _, (evs ++ [_]). split; [reflexivity |].
      split; [discriminate |]. split.
      * cbn. rewrite Htrace. rewrite <- app_assoc. reflexivity.
      * unfold polls, waits in *. rewrite !List.filter_app, !length_app. cbn.
        repeat split; try lia. apply Htime. lia.
    + exists (Raise e), s', evs. split; [reflexivity |].
      split; [discriminate |]. split; [exact Htrace |].
      repeat split; try lia. apply Htime. lia.
    + contradiction.
  - exists (Ret false), s, []. split; [reflexivity |].
    split; [discriminate |]. split; [rewrite app_nil_r; reflexivity |].
    cbn. repeat split; try lia. apply Htime. lia.
Qed.

(** *** What a computation adds to the trace *)

Section Frame.

Variable P : event -> Prop.

Lemma adds_ret {A : Type} (a : A) : adds_only P (ret a : M W A).
Proof. intros s. exists []. split; [symmetry; apply app_nil_r | constructor]. Qed.

Lemma adds_raise {A : Type} (c : exn_class) (msg : string) :
  adds_only P (raise c msg : M W A).
Proof. intros s. exists []. split; [symmetry; apply app_nil_r | constructor]. Qed.

Lemma adds_out_of_fuel {A : Type} : adds_only P (out_of_fuel : M W A).
Proof. intros s. exists []. split; [symmetry; apply app_nil_r | constructor]. Qed.

Lemma adds_lift {A : Type} (r : result A) : adds_only P (lift r : M W A).
Proof.
  intros s. exists []. destruct r; (split; [symmetry; apply app_nil_r | constructor]).
Qed.

Lemma adds_get_g : adds_only P (get_g : M W Globals).
Proof. intros s. exists []. split; [symmetry; apply app_nil_r | constructor]. Qed.

Lemma adds_put_g (gl : Globals) : adds_only P (put_g gl : M W unit).
Proof. intros s. exists []. split; [symmetry; apply app_nil_r | constructor]. Qed.

Lemma adds_read {A : Type} (f : W -> A) : adds_only P (read f).
Proof. intros s. exists []. split; [symmetry; apply app_nil_r | constructor]. Qed.

Lemma adds_call {A : Type} (ev : event) (f : W -> result A * W) :
  P ev -> adds_only P (call ev f).
Proof.
  intros Hev s. exists [ev]. unfold call.
  destruct (f (world s)) as [[a | e] w]; (split; [reflexivity | repeat constructor; exact Hev]).
Qed.

Lemma adds_query {A : Type} (ev : event) (f : W -> A * W) :
  P ev -> adds_only P (query ev f).
Proof.
  intros Hev s. exists [ev]. unfold query.
  destruct (f (world s)) as [a w]. split; [reflexivity | repeat constructor; exact Hev].
Qed.

Lemma adds_emit (ev : event) : P ev -> adds_only P (emit env ev).
Proof.
  intros Hev s. exists [ev]. split; [reflexivity | repeat constructor; exact Hev].
Qed.

Lemma adds_bind {A B : Type} (m : M W A) (k : A -> M W B) :
  adds_only P m -> (forall a : A, adds_only P (k a)) -> adds_only P (bind m k).
Proof.
  intros Hm Hk s. unfold bind. destruct (Hm s) as (evs1 & Ht1 & Hp1).
  destruct (m s) as [[a | e |] s1]; simpl in Ht1.
  - destruct (Hk a s1) as (evs2 & Ht2 & Hp2). exists (evs1 ++ evs2). split.
    + rewrite Ht2, Ht1. symmetry. apply app_assoc.
    + apply Forall_app. split; assumption.
  - exists evs1. split; assumption.
  - exists evs1. split; assumption.
Qed.

Lemma adds_try {A : Type} (body : M W A) (handler : exn -> option (M W A)) :
  adds_only P body ->
  (forall (e : exn) (h : M W A), handler e = Some h -> adds_only P h) ->
  adds_only P (try_except body handler).
Proof.
  intros Hb Hh s. unfold try_except. destruct (Hb s) as (evs1 & Ht1 & Hp1).
  destruct (body s) as [[a | e |] s1]; simpl in Ht1.
  - exists evs1. split; assumption.
  - destruct (handler e) as [h |] eqn:He.
    + destruct (Hh e h He s1) as (evs2 & Ht2 & Hp2). exists (evs1 ++ evs2). split.
      * rewrite Ht2, Ht1. symmetry. apply app_assoc.
      * apply Forall_app. split; assumption.
    + exists evs1. split; assumption.
  - exists evs1. split; assumption.
Qed.

End Frame.

Ltac frame :=
  repeat first
    [ assumption
    | match goal with H : context [adds_only] |- adds_only _ _ => apply H end
    | apply adds_ret | apply adds_raise | apply adds_out_of_fuel | apply adds_lift
    | apply adds_get_g | apply adds_put_g | apply adds_read
    | apply adds_call; reflexivity
    | apply adds_query; reflexivity
    | apply adds_emit; reflexivity
    | apply adds_bind; [| intros ?]
    | apply adds_try; [| intros ? ? ?]
    | match goal with
      | H : Some _ = Some _ |- _ => injection H as <-
      | H : None = Some _ |- _ => discriminate H
      | H : (if ?b then _ else _) = Some _ |- _ => destruct b
      | H : match ?c with _ => _ end = Some _ |- _ => destruct c
      | |- adds_only _ (if ?b then _ else _) => destruct b
      | |- adds_only _ (let '(_, _) := ?x in _) => destruct x
      | |- adds_only _ (match ?x with _ => _ end) => destruct x
      end ].

(** Nothing [run] calls before its last lines is [endOfDirectory]. *)
Abbreviation not_end := (fun ev : event => is_end_of_directory ev = false).

Lemma check_valid_credentials_frame (fuel : nat) :
  adds_only not_end (_check_valid_credentials env fuel).
Proof.
  induction fuel as [| fuel IH]; cbn [_check_valid_credentials]; frame.
Qed.

Lemma lazy_login_frame {A : Type} (name : string) (func : A -> M W bool)
    (fuel : nat) (args : A) :
  adds_only not_end (func args) ->
  adds_only not_end (lazy_login env name func fuel args).
Proof.
  intros Hfunc. pose proof (check_valid_credentials_frame fuel).
  unfold lazy_login, debug. frame.
Qed.

Lemma execute_frame (executor_type : nav_handler) (pathitems : list string)
    (params : gmap string string) :
  adds_only not_end (_execute env executor_type pathitems params).
Proof. unfold _execute, debug. frame. Qed.

Lemma route_frame (fuel : nat) (pathitems : list string) :
  adds_only not_end (route env fuel pathitems).
Proof.
  unfold route. apply lazy_login_frame.
  unfold route_wrapped, debug, warn.
  pose proof execute_frame. frame.
Qed.

Lemma get_service_status_frame (prop : string) :
  adds_only not_end (_get_service_status env prop).
Proof. unfold _get_service_status. frame. Qed.

Lemma wait_for_service_frame (fuel : nat) :
  forall (prop : string) (sec : Q), adds_only not_end (wait_for_service env fuel prop sec).
Proof.
  induction fuel as [| fuel IH]; intros prop sec; cbn [wait_for_service];
    pose proof get_service_status_frame; frame.
Qed.

Lemma check_addon_external_call_frame (fuel : nat) (prop : string) :
  adds_only not_end (_check_addon_external_call env fuel prop).
Proof.
  unfold _check_addon_external_call, debug.
  pose proof (wait_for_service_frame fuel). frame.
Qed.

Lemma run_startup_frame (fuel : nat) (argv : list string) :
  adds_only not_end (run_startup env fuel argv).
Proof.
  unfold run_startup, info.
  pose proof (check_addon_external_call_frame fuel).
  pose proof get_service_status_frame. frame.
Qed.

Lemma run_dispatch_frame (fuel : nat) :
  adds_only not_end (try_except (run_dispatch env fuel) (run_except env)).
Proof.
  unfold run_dispatch, run_except, error. pose proof (route_frame fuel). frame.
Qed.

(** *** The top-level handler *)

(** Every exception that derives from [Exception] finds its [except] clause
    in [run]; the clause shows a dialog and sets [success] to [False]. *)
Lemma run_except_handles (e : exn) (s : state W) :
  is_exception (cls e) = true ->
  exists (h : M W bool) (s' : state W) (evs : list event) (dialog : event),
    run_except env e = Some h
    /\ h s = (Ret false, s')
    /\ g s' = g s
    /\ trace s' = trace s ++ evs
    /\ In dialog evs
    /\ is_dialog dialog = true
    /\ Forall (fun ev => routing_event ev = false) evs.
Proof.
  unfold run_except.
  destruct (cls e); intros Hexc; try discriminate Hexc;
    eexists _, _, _, _; (split; [reflexivity |]);
    unfold bind, emit, read, error, ret, record; cbn;
    (split; [reflexivity |]); (split; [reflexivity |]);
    (split; [try rewrite <- app_assoc; reflexivity |]);
    first
      [ solve [split; [left; reflexivity | split; [reflexivity | repeat constructor]]]
      | solve [split; [right; left; reflexivity | split; [reflexivity | repeat constructor]]] ].
Qed.

(** The guarded section of [run] lets through the exceptions that do not
    derive from [Exception], and no others. *)
Lemma run_dispatch_guarded (fuel : nat) (s : state W) :
  match run_dispatch env fuel s with
  | (Ret b, s') => try_except (run_dispatch env fuel) (run_except env) s = (Ret b, s')
  | (OutOfFuel, s') =>
      try_except (run_dispatch env fuel) (run_except env) s = (OutOfFuel, s')
  | (Raise e, s') =>
      if is_exception (cls e) then
        exists (s'' : state W) (evs : list event) (dialog : event),
          try_except (run_dispatch env fuel) (run_except env) s = (Ret false, s'')
          /\ g s'' = g s'
          /\ trace s'' = trace s' ++ evs
          /\ In dialog evs
          /\ is_dialog dialog = true
          /\ Forall (fun ev => routing_event ev = false) evs
      else try_except (run_dispatch env fuel) (run_except env) s = (Raise e, s')
  end.
Proof.
  unfold try_except. destruct (run_dispatch env fuel s) as [[b | e |] s']; try reflexivity.
  destruct (is_exception (cls e)) eqn:Hexc.
  - destruct (run_except_handles e s' Hexc)
      as (h & s'' & evs & dialog & Hh & Hrun & Hg & Ht & Hd).
    rewrite Hh. exists s'', evs, dialog. split; [exact Hrun |]. split; [exact Hg |].
    split; [exact Ht |]. exact Hd.
  - unfold run_except. destruct (cls e); try discriminate Hexc; reflexivity.
Qed.

(** The last lines of [run], 242-245. *)
Lemma run_finish (fuel : nat) (argv : list string) (s s1 s2 : state W) (b success : bool) :
  run_startup env fuel argv s = (Ret b, s1) ->
  (if b then try_except (run_dispatch env fuel) (run_except env) s1 else (Ret b, s1))
  = (Ret success, s2) ->
  run env fuel argv s
  = (Ret success,
     after env EvLogTimeTrace
       (if success then s2 else after env (EvEndOfDirectory (PLUGIN_HANDLE (g s2)) false) s2)).
Proof.
  intros Hstart Hmid. unfold run. unfold bind at 1. rewrite Hstart.
  unfold bind at 1. unfold ret at 1.
  replace ((if b then try_except (run_dispatch env fuel) (run_except env)
            else fun s0 => (Ret b, s0)) s1) with (Ret success, s2)
    by (rewrite <- Hmid; destruct b; reflexivity).
  destruct success; reflexivity.
Qed.

(** C3, as the code has it.  Once the unguarded first part of [run] has
    returned, an exception that derives from [Exception], raised by the
    upgrade check, the first-run configuration or the routing, is caught,
    answered with a dialog, and makes the invocation a failure signalled to
    the host.  An exception that does not derive from [Exception]
    ([SystemExit], [KeyboardInterrupt], [GeneratorExit]) is not caught: it
    leaves [run] from where it was raised, without dialog or signal, and no
    other exception leaves [run].  [run] fails to return only when the
    dispatch itself does. *)
Theorem run_dispatch_errors_caught (fuel : nat) (argv : list string)
    (s s1 : state W) (success : bool) :
  run_startup env fuel argv s = (Ret success, s1) ->
  (forall (e : exn) (s2 : state W),
     success = true ->
     run_dispatch env fuel s1 = (Raise e, s2) ->
     is_exception (cls e) = true ->
     exists (s3 : state W) (evs : list event) (dialog : event),
       run env fuel argv s = (Ret false, s3)
       /\ trace s3 = trace s2 ++ evs
       /\ In dialog evs
       /\ is_dialog dialog = true
       /\ In (EvEndOfDirectory (PLUGIN_HANDLE (g s2)) false) evs)
  /\ (forall (e : exn) (s2 : state W),
        success = true ->
        run_dispatch env fuel s1 = (Raise e, s2) ->
        is_exception (cls e) = false ->
        run env fuel argv s = (Raise e, s2))
  /\ (forall e : exn, fst (run env fuel argv s) = Raise e -> is_exception (cls e) = false)
  /\ (fst (run env fuel argv s) = OutOfFuel ->
      success = true /\ fst (run_dispatch env fuel s1) = OutOfFuel).
Proof.
  intros Hstart.
  pose proof (run_dispatch_guarded fuel s1) as Hguard.
  destruct success.
  - destruct (run_dispatch env fuel s1) as [[b | e |] s2] eqn:Hdispatch.
    + rewrite (run_finish fuel argv s s1 s2 true b Hstart Hguard).
      repeat split; intros; discriminate.
    + destruct (is_exception (cls e)) eqn:Hexc.
      * destruct Hguard as (s'' & evs & dialog & Htry & Hg & Ht & Hin & Hdialog & _).
        rewrite (run_finish fuel argv s s1 s'' true false Hstart Htry).
        split; [| repeat split; intros; try discriminate; congruence].
        intros e0 s0 _ [= <- <-] _.
        eexists _, (evs ++ [_; _]), dialog. split; [reflexivity |]. split.
        -- cbn. rewrite Ht, Hg. rewrite <- !app_assoc. reflexivity.
        -- split; [apply in_or_app; left; exact Hin |]. split; [exact Hdialog |].
           apply in_or_app. right. left. reflexivity.
      * assert (Hrun : run env fuel argv s = (Raise e, s2)).
        { unfold run. unfold bind at 1. rewrite Hstart. unfold bind at 1.
          rewrite Hguard. reflexivity. }
        rewrite Hrun. split; [intros e0 s0 _ [= <- <-] H; congruence |].
        split; [intros e0 s0 _ [= <- <-] _; reflexivity |].
        split; [intros e0 [= <-]; exact Hexc | intros; discriminate].
    + assert (Hrun : run env fuel argv s = (OutOfFuel, s2)).
      { unfold run. unfold bind at 1. rewrite Hstart. unfold bind at 1.
        rewrite Hguard. reflexivity. }
      rewrite Hrun. split; [intros; discriminate |].
      split; [intros; discriminate |]. split; [intros e; discriminate |].
      intros _. split; reflexivity.
  - rewrite (run_finish fuel argv s s1 s1 false false Hstart eq_refl).
    repeat split; intros; discriminate.
Qed.

(** C2, as the code has it.  When [run] returns after a failure it has called
    [endOfDirectory(succeeded=False)] once, just before [log_time_trace];
    when it returns after a success it has not called [endOfDirectory]. *)
Theorem run_signals_failure (fuel : nat) (argv : list string)
    (s s' : state W) (success : bool) :
  run env fuel argv s = (Ret success, s') ->
  exists evs : list event,
    Forall (fun ev => is_end_of_directory ev = false) evs
    /\ trace s' = trace s ++ evs
         ++ (if success then [] else [EvEndOfDirectory (PLUGIN_HANDLE (g s')) false])
         ++ [EvLogTimeTrace].
Proof.
  intros Hrun.
  destruct (run_startup_frame fuel argv s) as (evs1 & Ht1 & Hp1).
  destruct (run_startup env fuel argv s) as [[b | e |] s1] eqn:Hstart; simpl in Ht1;
    try (unfold run, bind in Hrun; rewrite Hstart in Hrun; discriminate).
  assert (Hmid : exists (s2 : state W) (evs2 : list event),
            (if b then try_except (run_dispatch env fuel) (run_except env) s1 else (Ret b, s1))
            = (Ret success, s2)
            /\ trace s2 = trace s1 ++ evs2
            /\ Forall (fun ev => is_end_of_directory ev = false) evs2).
  { destruct b.
    - destruct (run_dispatch_frame fuel s1) as (evs2 & Ht2 & Hp2).
      destruct (try_except (run_dispatch env fuel) (run_except env) s1)
        as [[b2 | e |] s2] eqn:Htry; simpl in Ht2.
      + rewrite (run_finish fuel argv s s1 s2 true b2 Hstart Htry) in Hrun.
        injection Hrun as <- _. exists s2, evs2. repeat split; assumption.
      + unfold run in Hrun. unfold bind at 1 in Hrun. rewrite Hstart in Hrun.
        unfold bind at 1 in Hrun. rewrite Htry in Hrun. discriminate.
      + unfold run in Hrun. unfold bind at 1 in Hrun. rewrite Hstart in Hrun.
        unfold bind at 1 in Hrun. rewrite Htry in Hrun. discriminate.
    - rewrite (run_finish fuel argv s s1 s1 false false Hstart eq_refl) in Hrun.
      injection Hrun as <- _. exists s1, []. split; [reflexivity |].
      split; [symmetry; apply app_nil_r | constructor]. }
  destruct Hmid as (s2 & evs2 & Hmid & Ht2 & Hp2).
  rewrite (run_finish fuel argv s s1 s2 b success Hstart Hmid) in Hrun.
  injection Hrun as <-. exists (evs1 ++ evs2). split; [apply Forall_app; split; assumption |].
  destruct success; cbn; rewrite Ht2, Ht1; rewrite <- !app_assoc; reflexivity.
Qed.

(** C8.  On the first run after an upgrade, when the upgrade check asks to
    cancel playback and the request is a play request, [run] ends in failure
    and makes none of the calls of the router: no credential check, no login,
    no handler. *)
Theorem run_cancels_playback (fuel : nat) (argv : list string) (s s1 : state W)
    (is_first_run_install : bool) (w1 : W) (rest : list string) :
  run_startup env fuel argv s = (Ret true, s1) ->
  IS_ADDON_FIRSTRUN (g s1) = true ->
  check_addon_upgrade env (world s1) = (Ok (is_first_run_install, true), w1) ->
  parse_path (REQUEST_PATH (g s1)) = MODE_PLAY (g s1) :: rest ->
  exists (s' : state W) (evs : list event),
    run env fuel argv s = (Ret false, s')
    /\ trace s' = trace s1 ++ evs
    /\ Forall (fun ev => routing_event ev = false) evs
    /\ In (EvEndOfDirectory (PLUGIN_HANDLE (g s1)) false) evs.
Proof.
  intros Hstart Hfirst Hupgrade Hpath.
  assert (Hplay : existsb (String.eqb (MODE_PLAY (g s1)))
                    (firstn 1 (parse_path (REQUEST_PATH (g s1)))) = true).
  { rewrite Hpath. cbn. rewrite String.eqb_refl. reflexivity. }
  set (s2 := record EvCheckAddonUpgrade s1 w1).
  assert (Hdispatch : exists (s3 : state W) (evs : list event),
            try_except (run_dispatch env fuel) (run_except env) s1 = (Ret false, s3)
            /\ g s3 = g s1
            /\ trace s3 = trace s1 ++ evs
            /\ Forall (fun ev => routing_event ev = false) evs).
  { unfold try_except, run_dispatch. unfold bind at 1. unfold get_g at 1.
    rewrite Hfirst. unfold bind at 1. unfold bind at 1. unfold call at 1.
    rewrite Hupgrade. fold s2. destruct is_first_run_install.
    - unfold bind at 1. unfold call at 1. change (world s2) with w1.
      destruct (run_addon_configuration env w1) as [[[] | e] w2] eqn:Hwizard.
      + unfold ret at 1. unfold bind at 1. unfold get_g at 1.
        change (g (record EvRunAddonConfiguration s2 w2)) with (g s1).
        rewrite Hplay. cbn.
        eexists _, [_; _]. split; [reflexivity |]. split; [reflexivity |].
        split; [cbn; rewrite <- app_assoc; reflexivity | repeat constructor].
      + destruct (run_except_handles e (record EvRunAddonConfiguration s2 w2)
                    (run_addon_configuration_error env _ _ _ Hwizard))
          as (h & s3 & evs & dialog & Hh & Hrun & Hg & Ht & _ & _ & Hquiet).
        rewrite Hh, Hrun. exists s3, ([EvCheckAddonUpgrade; EvRunAddonConfiguration] ++ evs).
        split; [reflexivity |]. split; [rewrite Hg; reflexivity |]. split.
        * rewrite Ht. cbn. rewrite <- !app_assoc. reflexivity.
        * apply Forall_app. split; [repeat constructor | exact Hquiet].
    - unfold bind at 1. unfold ret at 1. unfold ret at 1. unfold bind at 1.
      unfold get_g at 1. change (g s2) with (g s1). rewrite Hplay. cbn.
      eexists _, [_]. split; [reflexivity |]. split; [reflexivity |].
      split; [reflexivity | repeat constructor]. }
  destruct Hdispatch as (s3 & evs & Htry & Hg & Ht & Hquiet).
  rewrite (run_finish fuel argv s s1 s3 true false Hstart Htry).
  eexists _, (evs ++ [_; _]). split; [reflexivity |]. split.
  - cbn. rewrite Ht. rewrite <- !app_assoc. reflexivity.
  - split.
    + apply Forall_app. split; [exact Hquiet | repeat constructor].
    + apply in_or_app. right. left. rewrite Hg. reflexivity.
Qed.

(** *** The login wrapper, beyond the recovery *)

Lemma wrong_passwords_trace (k : nat) :
  forall s sk : state W,
    wrong_passwords env k s = Some sk ->
    trace sk = trace s ++ prompts k /\ g sk = g s.
Proof.
  induction k as [| k IH]; intros s sk H; cbn in H.
  - injection H as <-. split; [symmetry; apply app_nil_r | reflexivity].
  - unfold wrong_password in H.
    destruct (check_credentials env (world s)) as [[[] | e] w1]; try discriminate.
    destruct (login env None w1) as [[[] | e] w2]; try discriminate.
    destruct (IH _ _ H) as [Ht Hg]. split; [| exact Hg].
    rewrite Ht. cbn. rewrite <- !app_assoc. reflexivity.
Qed.

(** The prompt loop after [k] wrong passwords and a last prompt that does not
    answer [False]. *)
Lemma check_valid_credentials_prompts (k : nat) :
  forall (fuel : nat) (s sk : state W) (w1 w2 : W) (r : result bool),
    wrong_passwords env k s = Some sk ->
    check_credentials env (world sk) = (Ok false, w1) ->
    login env None w1 = (r, w2) ->
    r <> Ok false ->
    _check_valid_credentials env (S k + fuel) s
    = (prompt_outcome r, record (EvLogin None) (record EvCheckCredentials sk w1) w2).
Proof.
  induction k as [| k IH]; intros fuel s sk w1 w2 r Hwrong Hcheck Hlogin Hr.
  - cbn in Hwrong. injection Hwrong as <-.
    cbn [Nat.add _check_valid_credentials]. unfold bind at 1. unfold call at 1.
    rewrite Hcheck. cbn [negb]. unfold try_except, bind, call.
    change (world (record EvCheckCredentials s w1)) with w1. rewrite Hlogin.
    destruct r as [[] | e]; [reflexivity | contradiction |].
    cbn. destruct (cls e); reflexivity.
  - cbn in Hwrong. destruct (wrong_password env s) as [s' |] eqn:Hround; [| discriminate].
    specialize (IH fuel s' sk w1 w2 r Hwrong Hcheck Hlogin Hr).
    unfold wrong_password in Hround.
    destruct (check_credentials env (world s)) as [[[] | e] v1] eqn:Hc; try discriminate.
    destruct (login env None v1) as [[[] | e] v2] eqn:Hl; try discriminate.
    injection Hround as <-.
    change (S (S k) + fuel)%nat with (S (S k + fuel)).
    cbn [_check_valid_credentials]. unfold bind at 1. unfold call at 1.
    rewrite Hc. cbn [negb]. unfold try_except. unfold bind at 1. unfold call at 1.
    change (world (record EvCheckCredentials s v1)) with v1. rewrite Hl. cbn [negb].
    rewrite IH. destruct r as [[] | e]; [reflexivity | contradiction |].
    cbn. destruct (cls e) eqn:Hcls; cbn; rewrite ?Hcls; reflexivity.
Qed.

(** X1.  With valid stored credentials the wrapper calls the function once
    and logs in never: it checks the credentials, calls, and hands back what
    the call returned or raised, unless that is a session failure. *)
Theorem lazy_login_calls_through {A : Type} (name : string)
    (f : A -> W -> result bool * W) (fuel : nat) (args : A)
    (s : state W) (w w' : W) (r : result bool) :
  check_credentials env (world s) = (Ok true, w) ->
  f args w = (r, w') ->
  (forall e : exn, r = Err e -> session_invalid (cls e) = false) ->
  lazy_login env name (fun a => call (EvCall name) (f a)) (S fuel) args s
  = (outcome_of r, State w' (g s) (trace s ++ [EvCheckCredentials; EvCall name])).
Proof.
  intros Hc Hf Hr.
  assert (Hcall : call (EvCall name) (f args) (record EvCheckCredentials s w)
                  = (outcome_of r,
                     State w' (g s) (trace s ++ [EvCheckCredentials; EvCall name]))).
  { unfold call. cbn. rewrite Hf. unfold record. cbn. rewrite <- app_assoc.
    destruct r; reflexivity. }
  rewrite (lazy_login_valid name _ fuel args s w Hc).
  - exact Hcall.
  - intros e s' He. rewrite Hcall in He. destruct r as [b | e0]; [discriminate |].
    injection He as <- _. apply Hr. reflexivity.
Qed.

(** X2.  Without stored credentials, after [k] wrong passwords the user
    leaves the prompt: the wrapper returns [False] and the function is not
    called. *)
Theorem lazy_login_cancelled {A : Type} (name : string) (func : A -> M W bool)
    (k fuel : nat) (args : A) (s sk : state W) (w1 w2 : W) (e : exn) :
  wrong_passwords env k s = Some sk ->
  check_credentials env (world sk) = (Ok false, w1) ->
  login env None w1 = (Err e, w2) ->
  cls e = MissingCredentialsError ->
  lazy_login env name func (S k + fuel) args s
  = (Ret false, State w2 (g s) (trace s ++ prompts (S k))).
Proof.
  intros Hwrong Hcheck Hlogin Hcls.
  destruct (wrong_passwords_trace k s sk Hwrong) as [Ht Hg].
  unfold lazy_login, try_except. unfold bind at 1.
  rewrite (check_valid_credentials_prompts k fuel s sk w1 w2 (Err e) Hwrong Hcheck Hlogin)
    by discriminate.
  cbn. rewrite Hcls. cbn. unfold record. cbn. rewrite Ht, Hg. f_equal. f_equal.
  rewrite <- !app_assoc. f_equal.
  clear. induction k as [| k IH]; [reflexivity |]. cbn. f_equal. f_equal. exact IH.
Qed.

(** X3.  A typing error is forgiven: after [k] wrong passwords a login that
    succeeds makes the credential check answer [True], after [k + 1] prompts
    and as many looks at the stored credentials. *)
Theorem check_valid_credentials_retry (k fuel : nat) (s sk : state W) (w1 w2 : W) :
  wrong_passwords env k s = Some sk ->
  check_credentials env (world sk) = (Ok false, w1) ->
  login env None w1 = (Ok true, w2) ->
  exists s' : state W,
    _check_valid_credentials env (S k + fuel) s = (Ret true, s')
    /\ world s' = w2
    /\ trace s' = trace s ++ prompts (S k).
Proof.
  intros Hwrong Hcheck Hlogin.
  destruct (wrong_passwords_trace k s sk Hwrong) as [Ht Hg].
  eexists. split.
  - apply (check_valid_credentials_prompts k fuel s sk w1 w2 (Ok true) Hwrong Hcheck Hlogin).
    discriminate.
  - split; [reflexivity |]. cbn. rewrite Ht. rewrite <- !app_assoc. f_equal.
    clear. induction k as [| k IH]; [reflexivity |]. cbn. f_equal. f_equal. exact IH.
Qed.

(** X4.  A prompt the user leaves never surfaces as an exception: the only
    [MissingCredentialsError] the credential check lets through is one that
    the first look at the stored credentials raised. *)
Theorem check_valid_credentials_missing (fuel : nat) (s s' : state W) (e : exn) :
  _check_valid_credentials env fuel s = (Raise e, s') ->
  cls e = MissingCredentialsError ->
  check_credentials env (world s) = (Err e, world s').
Proof.
  intros Hrun Hcls. destruct fuel as [| fuel]; [discriminate |].
  cbn [_check_valid_credentials] in Hrun. unfold bind at 1 in Hrun. unfold call at 1 in Hrun.
  destruct (check_credentials env (world s)) as [[[] | e0] w1].
  - discriminate.
  - cbn [negb] in Hrun. unfold try_except in Hrun.
    match type of Hrun with
    | (let (_, _) := ?body in _) = _ => destruct body as [[b | e1 |] s1]
    end; try discriminate.
    destruct (cls e1) eqn:Hc1; try discriminate;
      injection Hrun as <- _; rewrite Hcls in Hc1; discriminate.
  - injection Hrun as <- <-. reflexivity.
Qed.

(** The wrapper once the credential check or the first call has raised a
    session failure: the recovery of lines 52-62. *)
Lemma lazy_login_recovers {A : Type} (name : string) (func : A -> M W bool)
    (fuel : nat) (args : A) (s s2 : state W) (e : exn) :
  bind (_check_valid_credentials env fuel)
       (fun valid => if negb valid then ret false else func args) s = (Raise e, s2) ->
  session_invalid (cls e) = true ->
  lazy_login env name func fuel args s
  = try_except
      (bind (call EvCheckCredentials (check_credentials env))
         (fun stored =>
            bind (call (EvLogin (Some (negb stored))) (login env (Some (negb stored))))
              (fun logged =>
                 if negb logged then ret false
                 else bind (debug env "Account logged in, try executing again {}"
                              [PyStr name])
                        (fun _ => func args))))
      (fun e' => match cls e' with
                 | MissingCredentialsError => Some (ret false)
                 | _ => None
                 end)
      (after env (EvLog LDebug "Tried to perform an action without being logged in" []) s2).
Proof.
  intros Hbody Hkind. unfold lazy_login at 1. unfold try_except at 1.
  rewrite Hbody. rewrite Hkind. reflexivity.
Qed.

(** The recovery when its login answers [True]: the function runs in the
    state the login left, and a [MissingCredentialsError] is answered with
    [False]. *)
Lemma recovery_retries {A : Type} (name : string) (func : A -> M W bool) (args : A)
    (s3 : state W) (stored : bool) (w3 w4 : W) :
  check_credentials env (world s3) = (Ok stored, w3) ->
  login env (Some (negb stored)) w3 = (Ok true, w4) ->
  let s5 := after env (EvLog LDebug "Account logged in, try executing again {}" [PyStr name])
              (record (EvLogin (Some (negb stored))) (record EvCheckCredentials s3 w3) w4) in
  try_except
    (bind (call EvCheckCredentials (check_credentials env))
       (fun stored0 =>
          bind (call (EvLogin (Some (negb stored0))) (login env (Some (negb stored0))))
            (fun logged =>
               if negb logged then ret false
               else bind (debug env "Account logged in, try executing again {}" [PyStr name])
                      (fun _ => func args))))
    (fun e' => match cls e' with
               | MissingCredentialsError => Some (ret false)
               | _ => None
               end) s3
  = match func args s5 with
    | (Raise e2, s6) =>
        match cls e2 with
        | MissingCredentialsError => (Ret false, s6)
        | _ => (Raise e2, s6)
        end
    | r => r
    end.
Proof.
  intros Hstored Hlogin s5. unfold try_except, bind, call. rewrite Hstored.
  cbv beta iota zeta. change (world (record EvCheckCredentials s3 w3)) with w3.
  rewrite Hlogin. cbv beta iota zeta. change (negb true) with false. cbv iota.
  unfold debug, emit. change (func args _) with (func args s5).
  destruct (func args s5) as [[b | e2 |] s6]; try reflexivity.
  destruct (cls e2); reflexivity.
Qed.

(** X5.  A [MissingCredentialsError] raised by the wrapped function itself is
    treated in two ways: raised by the first call it leaves the wrapper as it
    is; raised by the call that follows a recovery login it is swallowed and
    the wrapper returns [False]. *)
Theorem lazy_login_missing_credentials {A : Type} (name : string) (func : A -> M W bool)
    (fuel : nat) (args : A) (s s1 s2 : state W) (e : exn) :
  _check_valid_credentials env fuel s = (Ret true, s1) ->
  func args s1 = (Raise e, s2) ->
  (cls e = MissingCredentialsError ->
   lazy_login env name func fuel args s = (Raise e, s2))
  /\ (session_invalid (cls e) = true ->
      forall (stored : bool) (w3 w4 : W) (e2 : exn) (s6 : state W),
        let s3 := after env
                    (EvLog LDebug "Tried to perform an action without being logged in" []) s2 in
        check_credentials env (world s3) = (Ok stored, w3) ->
        login env (Some (negb stored)) w3 = (Ok true, w4) ->
        func args
          (after env (EvLog LDebug "Account logged in, try executing again {}" [PyStr name])
             (record (EvLogin (Some (negb stored))) (record EvCheckCredentials s3 w3) w4))
        = (Raise e2, s6) ->
        cls e2 = MissingCredentialsError ->
        lazy_login env name func fuel args s = (Ret false, s6)).
Proof.
  intros Hvalid Hfirst.
  assert (Hbody : bind (_check_valid_credentials env fuel)
                    (fun valid => if negb valid then ret false else func args) s
                  = (Raise e, s2)).
  { unfold bind. rewrite Hvalid. exact Hfirst. }
  split.
  - intros Hcls. unfold lazy_login, try_except. rewrite Hbody. rewrite Hcls. reflexivity.
  - intros Hkind stored w3 w4 e2 s6 s3 Hstored Hlogin Hretry Hcls2.
    rewrite (lazy_login_recovers name func fuel args s s2 e Hbody Hkind).
    fold s3.
    rewrite (recovery_retries name func args s3 stored w3 w4 Hstored Hlogin).
    cbv zeta. rewrite Hretry. rewrite Hcls2. reflexivity.
Qed.

(** X6.  The recovery also covers the login of the credential check: when
    there are no stored credentials and that first login raises a session
    failure, the wrapper logs in a second time, now passing
    [ask_credentials], and on success calls the function, once. *)
Theorem lazy_login_recovers_entry_login {A : Type} (name : string) (func : A -> M W bool)
    (fuel : nat) (args : A) (s : state W) (w1 w2 : W) (e : exn)
    (stored : bool) (w3 w4 : W) (b : bool) (s6 : state W) :
  check_credentials env (world s) = (Ok false, w1) ->
  login env None w1 = (Err e, w2) ->
  session_invalid (cls e) = true ->
  let s3 := after env (EvLog LDebug "Tried to perform an action without being logged in" [])
              (record (EvLogin None) (record EvCheckCredentials s w1) w2) in
  check_credentials env (world s3) = (Ok stored, w3) ->
  login env (Some (negb stored)) w3 = (Ok true, w4) ->
  func args
    (after env (EvLog LDebug "Account logged in, try executing again {}" [PyStr name])
       (record (EvLogin (Some (negb stored))) (record EvCheckCredentials s3 w3) w4))
  = (Ret b, s6) ->
  lazy_login env name func (S fuel) args s = (Ret b, s6).
Proof.
  intros Hcheck Hlogin Hkind s3 Hstored Hrelogin Hcall.
  assert (Hbody : bind (_check_valid_credentials env (S fuel))
                    (fun valid => if negb valid then ret false else func args) s
                  = (Raise e, record (EvLogin None) (record EvCheckCredentials s w1) w2)).
  { unfold bind at 1. cbn [_check_valid_credentials]. unfold bind at 1. unfold call at 1.
    rewrite Hcheck. cbn [negb]. unfold try_except. unfold bind at 1. unfold call at 1.
    change (world (record EvCheckCredentials s w1)) with w1. rewrite Hlogin.
    destruct (cls e); try discriminate; reflexivity. }
  rewrite (lazy_login_recovers name func (S fuel) args s _ e Hbody Hkind).
  fold s3.
  rewrite (recovery_retries name func args s3 stored w3 w4 Hstored Hrelogin).
  cbv zeta. rewrite Hcall. reflexivity.
Qed.

(** *** The router, beyond the failures *)

(** X7.  [_get_nav_handler] knows exactly the four modes of [g]: it answers
    [None] for every other root segment, and when the four modes are distinct
    it maps them to [Directory], [AddonActionExecutor],
    [LibraryActionExecutor] and [HubBrowser]. *)
Theorem get_nav_handler_table (gl : Globals) (root : string) :
  let modes := [MODE_DIRECTORY gl; MODE_ACTION gl; MODE_LIBRARY gl; MODE_HUB gl] in
  (_get_nav_handler gl root = None <-> ~ In root modes)
  /\ (List.NoDup modes ->
      _get_nav_handler gl (MODE_DIRECTORY gl) = Some Directory
      /\ _get_nav_handler gl (MODE_ACTION gl) = Some AddonActionExecutor
      /\ _get_nav_handler gl (MODE_LIBRARY gl) = Some LibraryActionExecutor
      /\ _get_nav_handler gl (MODE_HUB gl) = Some HubBrowser).
Proof.
  intros modes. split.
  - unfold _get_nav_handler, modes. cbn [In]. split.
    + intros H [<- | [<- | [<- | [<- | []]]]]; revert H;
        rewrite String.eqb_refl;
        repeat match goal with |- context [String.eqb ?a ?b] => destruct (String.eqb a b) end;
        discriminate.
    + intros H.
      rewrite (eqb_false_of_neq root (MODE_DIRECTORY gl)) by (intros ->; apply H; auto 10).
      rewrite (eqb_false_of_neq root (MODE_ACTION gl)) by (intros ->; apply H; auto 10).
      rewrite (eqb_false_of_neq root (MODE_LIBRARY gl)) by (intros ->; apply H; auto 10).
      rewrite (eqb_false_of_neq root (MODE_HUB gl)) by (intros ->; apply H; auto 10).
      reflexivity.
  - unfold modes. intros Hdup.
    inversion Hdup as [| ? ? Hd Hdup1]; subst.
    inversion Hdup1 as [| ? ? Ha Hdup2]; subst.
    inversion Hdup2 as [| ? ? Hl _]; subst.
    cbn [In] in Hd, Ha, Hl.
    assert (Hda : MODE_DIRECTORY gl <> MODE_ACTION gl)
      by (intros E; apply Hd; rewrite E; auto 10).
    assert (Hdl : MODE_DIRECTORY gl <> MODE_LIBRARY gl)
      by (intros E; apply Hd; rewrite E; auto 10).
    assert (Hdh : MODE_DIRECTORY gl <> MODE_HUB gl)
      by (intros E; apply Hd; rewrite E; auto 10).
    assert (Hal : MODE_ACTION gl <> MODE_LIBRARY gl)
      by (intros E; apply Ha; rewrite E; auto 10).
    assert (Hah : MODE_ACTION gl <> MODE_HUB gl)
      by (intros E; apply Ha; rewrite E; auto 10).
    assert (Hlh : MODE_LIBRARY gl <> MODE_HUB gl)
      by (intros E; apply Hl; rewrite E; auto 10).
    unfold _get_nav_handler. cbv zeta. rewrite !String.eqb_refl.
    rewrite ?(eqb_false_of_neq _ _ Hda), ?(eqb_false_of_neq _ _ Hdl),
            ?(eqb_false_of_neq _ _ Hdh), ?(eqb_false_of_neq _ _ Hal),
            ?(eqb_false_of_neq _ _ Hah), ?(eqb_false_of_neq _ _ Hlh),
            ?(eqb_false_of_neq _ _ (not_eq_sym Hda)),
            ?(eqb_false_of_neq _ _ (not_eq_sym Hdl)),
            ?(eqb_false_of_neq _ _ (not_eq_sym Hal)).
    repeat split; reflexivity.
Qed.

(** X8.  A path under the play segment goes to the player and to no handler
    class: [play] gets the segments after the root as the video id, the
    router answers [True] when [play] returns and raises what [play] raises.
    The same holds for [play_strm] under its own segment. *)
Theorem route_playback (rest : list string) (s : state W) (r : result unit) (w : W) :
  (play env rest (world (routing env s)) = (r, w) ->
   route_wrapped env (MODE_PLAY (g s) :: rest) s
   = (match r with Ok _ => Ret true | Err e => Raise e end,
      record (EvPlay rest) (routing env s) w))
  /\ (MODE_PLAY_STRM (g s) <> MODE_PLAY (g s) ->
      play_strm env rest (world (routing env s)) = (r, w) ->
      route_wrapped env (MODE_PLAY_STRM (g s) :: rest) s
      = (match r with Ok _ => Ret true | Err e => Raise e end,
         record (EvPlayStrm rest) (routing env s) w)).
Proof.
  split.
  - intros Hplay. rewrite route_wrapped_start. cbv beta iota zeta.
    rewrite String.eqb_refl. unfold bind, call. cbn [tail]. rewrite Hplay.
    destruct r as [[] | e]; reflexivity.
  - intros Hne Hplay. rewrite route_wrapped_start. cbv beta iota zeta.
    rewrite (eqb_false_of_neq _ _ Hne). rewrite String.eqb_refl.
    unfold bind, call. cbn [tail]. rewrite Hplay.
    destruct r as [[] | e]; reflexivity.
Qed.

(** X9.  The two levels of addressing: the root segment (the directory mode
    for an empty path) selects the handler class, the next segment ([root]
    when there is none) selects the member, and the member is called with
    the segments after the root segment, its own name included.  The router
    answers [True] when the member returns and raises what it raises. *)
Theorem route_dispatches (pathitems : list string) (s : state W) (nav : nav_handler)
    (instance executor : PyObject) (name : string) (w1 w2 w3 : W) (r : result unit) :
  let root := match pathitems with item :: _ => item | [] => MODE_DIRECTORY (g s) end in
  let action := match tail pathitems with item :: _ => item | [] => "root" end in
  root <> MODE_PLAY (g s) ->
  root <> MODE_PLAY_STRM (g s) ->
  root <> "extrafanart" ->
  _get_nav_handler (g s) root = Some nav ->
  instantiate env nav (REQUEST_PARAMS (g s)) (world (routing env s)) = (Ok instance, w1) ->
  getattribute env instance action w1 = (Ok executor, w2) ->
  attr_name env executor = Ok name ->
  let invoking := EvLog LDebug "Invoking action: {}" [PyStr name] in
  invoke env executor (tail pathitems) (output env invoking w2) = (r, w3) ->
  route_wrapped env pathitems s
  = (match r with Ok _ => Ret true | Err e => Raise e end,
     State w3 (g s)
       (trace s ++ [EvLog LDebug "Routing navigation request" []; EvInstantiate nav;
                    EvGetAttribute action; invoking; EvInvoke (tail pathitems)])).
Proof.
  intros root action Hp Hs Hx Hnav Hi Hg Hn invoking Hv.
  rewrite route_wrapped_start. cbv beta iota zeta. fold root.
  rewrite (eqb_false_of_neq _ _ Hp), (eqb_false_of_neq _ _ Hs), (eqb_false_of_neq _ _ Hx).
  rewrite Hnav. unfold bind at 1. unfold _execute. unfold bind at 1.
  unfold try_except, bind, call. rewrite Hi. cbv beta iota zeta.
  change (world (record (EvInstantiate nav) (routing env s) w1)) with w1.
  fold action. rewrite Hg. unfold lift. rewrite Hn. unfold debug, emit. cbn [world record].
  fold invoking. rewrite Hv.
  unfold record, routing, after, record. cbn. rewrite <- !app_assoc.
  destruct r as [[] | e]; reflexivity.
Qed.

(** X10.  The router answers [False] for the ignored segment only: whenever
    it returns [False] the root segment is [extrafanart]. *)
Theorem route_false_only_ignored (pathitems : list string) (s s' : state W) :
  route_wrapped env pathitems s = (Ret false, s') ->
  match pathitems with item :: _ => item | [] => MODE_DIRECTORY (g s) end = "extrafanart".
Proof.
  rewrite route_wrapped_start. cbv beta iota zeta.
  set (root := match pathitems with item :: _ => item | [] => MODE_DIRECTORY (g s) end).
  destruct (String.eqb root (MODE_PLAY (g s))).
  { unfold bind. destruct (call _ _ _) as [[u | e |] s1]; discriminate. }
  destruct (String.eqb root (MODE_PLAY_STRM (g s))).
  { unfold bind. destruct (call _ _ _) as [[u | e |] s1]; discriminate. }
  destruct (String.eqb root "extrafanart") eqn:Hx.
  { intros _. apply String.eqb_eq. exact Hx. }
  destruct (_get_nav_handler (g s) root); [| discriminate].
  unfold bind. destruct (_execute _ _ _ _ _) as [[u | e |] s1]; discriminate.
Qed.

(** X11.  [_execute] turns only the [AttributeError] of the constructor and
    of the lookup into [InvalidPathError]: what the action itself raises, an
    [AttributeError] included, leaves [_execute] as it is. *)
Theorem execute_action_error_unchanged (executor_type : nav_handler)
    (pathitems : list string) (params : gmap string string) (s : state W)
    (instance executor : PyObject) (name : string) (w1 w2 w3 : W) (e : exn) :
  let action := match pathitems with item :: _ => item | [] => "root" end in
  instantiate env executor_type params (world s) = (Ok instance, w1) ->
  getattribute env instance action w1 = (Ok executor, w2) ->
  attr_name env executor = Ok name ->
  invoke env executor pathitems
    (output env (EvLog LDebug "Invoking action: {}" [PyStr name]) w2) = (Err e, w3) ->
  fst (_execute env executor_type pathitems params s) = Raise e.
Proof.
  intros action Hi Hg Hn Hv. unfold _execute. unfold bind at 1.
  unfold try_except, bind, call. rewrite Hi. cbv beta iota zeta.
  change (world (record (EvInstantiate executor_type) s w1)) with w1.
  fold action. rewrite Hg. unfold lift. rewrite Hn. unfold debug, emit. cbn [world record].
  rewrite Hv. reflexivity.
Qed.

(** X12.  An exception of the constructor or of the lookup that is not an
    [AttributeError] leaves [_execute] as it is, and the action is not
    called. *)
Theorem execute_other_error_unchanged (executor_type : nav_handler)
    (pathitems : list string) (params : gmap string string) (s : state W) (e : exn) :
  cls e <> AttributeError ->
  (forall w1 : W,
     instantiate env executor_type params (world s) = (Err e, w1) ->
     _execute env executor_type pathitems params s
     = (Raise e, record (EvInstantiate executor_type) s w1))
  /\ (forall (instance : PyObject) (w1 w2 : W),
        instantiate env executor_type params (world s) = (Ok instance, w1) ->
        getattribute env instance
          (match pathitems with item :: _ => item | [] => "root" end) w1 = (Err e, w2) ->
        _execute env executor_type pathitems params s
        = (Raise e,
           record (EvGetAttribute (match pathitems with item :: _ => item | [] => "root" end))
             (record (EvInstantiate executor_type) s w1) w2)).
Proof.
  intros Hcls. split.
  - intros w1 Hi. unfold _execute, bind, try_except, call. rewrite Hi.
    destruct (cls e); try reflexivity. contradiction.
  - intros instance w1 w2 Hi Hg. unfold _execute, bind, try_except, call. rewrite Hi.
    cbv beta iota zeta. change (world (record (EvInstantiate executor_type) s w1)) with w1.
    rewrite Hg. destruct (cls e); try reflexivity. contradiction.
Qed.

(** *** The path of the request *)

Lemma split_on_no_slash (s : string) :
  Forall (fun part => has_slash part = false) (split_on "/"%char s).
Proof.
  induction s as [| c rest IH]; cbn [split_on]; [repeat constructor |].
  destruct (Ascii.eqb c "/"%char) eqn:Hc; [constructor; [reflexivity | exact IH] |].
  destruct (split_on "/"%char rest) as [| part parts].
  - repeat constructor. cbn. rewrite Hc. reflexivity.
  - inversion IH as [| ? ? Hpart Hparts]; subst. constructor; [| exact Hparts].
    cbn. rewrite Hc. exact Hpart.
Qed.

Lemma split_on_segment (a rest : string) :
  has_slash a = false ->
  split_on "/"%char (a +:+ String "/"%char rest) = a :: split_on "/"%char rest.
Proof.
  induction a as [| c a IH]; intros Ha.
  - reflexivity.
  - cbn in Ha. apply orb_false_iff in Ha. destruct Ha as [Hc Ha].
    change (String c a +:+ String "/"%char rest) with (String c (a +:+ String "/"%char rest)).
    cbn [split_on]. rewrite Hc. rewrite (IH Ha). reflexivity.
Qed.

Lemma split_on_last (a : string) :
  has_slash a = false -> split_on "/"%char a = [a].
Proof.
  induction a as [| c a IH]; intros Ha; [reflexivity |].
  cbn in Ha. apply orb_false_iff in Ha. destruct Ha as [Hc Ha].
  cbn [split_on]. rewrite Hc. rewrite (IH Ha). reflexivity.
Qed.

Lemma split_on_join (a : string) (l : list string) :
  Forall (fun part => has_slash part = false) (a :: l) ->
  split_on "/"%char (join_path (a :: l)) = a :: l.
Proof.
  revert a. induction l as [| b l IH]; intros a Hall.
  - inversion Hall; subst. apply split_on_last. assumption.
  - inversion Hall as [| ? ? Ha Hrest]; subst.
    change (join_path (a :: b :: l)) with (a +:+ String "/"%char (join_path (b :: l))).
    rewrite (split_on_segment a _ Ha). rewrite (IH b Hrest). reflexivity.
Qed.

(** X13.  The segments [run] routes on are never empty and never hold a
    [/], whatever the request path: empty segments, as around a leading, a
    trailing or a doubled [/], are dropped. *)
Theorem parse_path_segments (path : string) :
  Forall (fun part => segment part = true) (parse_path path).
Proof.
  unfold parse_path. apply List.Forall_forall. intros part Hin.
  apply List.filter_In in Hin. destruct Hin as [Hin Hne].
  pose proof (split_on_no_slash path) as Hall.
  rewrite List.Forall_forall in Hall. unfold segment. rewrite Hne. rewrite (Hall part Hin).
  reflexivity.
Qed.

(** X14.  Joining and parsing are inverse on segments: the path the router
    names in an [InvalidPathError] parses back to the segments it was given. *)
Theorem parse_path_join (pathitems : list string) :
  Forall (fun part => segment part = true) pathitems ->
  parse_path (join_path pathitems) = pathitems.
Proof.
  intros Hall. unfold parse_path. destruct pathitems as [| a l]; [reflexivity |].
  rewrite split_on_join.
  - induction Hall as [| part parts Hpart _ IH]; [reflexivity |].
    cbn [List.filter]. unfold segment in Hpart. apply andb_true_iff in Hpart.
    destruct Hpart as [Hne _]. rewrite Hne. f_equal. exact IH.
  - eapply List.Forall_impl; [| exact Hall]. intros part Hpart. unfold segment in Hpart.
    apply andb_true_iff in Hpart. destruct Hpart as [_ Hslash].
    apply negb_true_iff. exact Hslash.
Qed.

(** *** The external-call guard, beyond the bound *)

Lemma get_service_status_g (prop : string) (s : state W) :
  g (snd (_get_service_status env prop s)) = g s.
Proof.
  destruct (get_service_status_returns prop s) as (status & w & H). rewrite H. reflexivity.
Qed.

Lemma wait_for_service_g (fuel : nat) :
  forall (prop : string) (sec : Q) (s : state W),
    g (snd (wait_for_service env fuel prop sec s)) = g s.
Proof.
  induction fuel as [| fuel IH]; intros prop sec s; [reflexivity |].
  cbn [wait_for_service]. unfold bind at 1.
  destruct (get_service_status_returns prop s) as (status & w & H). rewrite H.
  unfold bind at 1. unfold lift.
  destruct (py_get status "status") as [value | e]; [| reflexivity].
  destruct (py_eq_str value "running"); [reflexivity |].
  destruct (Qle_bool limit_sec sec); [reflexivity |].
  unfold bind at 1. unfold query at 1.
  destruct (abortRequested env _) as [[] w2]; [reflexivity |].
  unfold bind at 1. unfold query at 1.
  destruct (waitForAbort env _ _) as [[] w3]; [reflexivity |].
  rewrite IH. reflexivity.
Qed.

(** X15.  The guard answers whether the call looks external (another
    plugin's container, or no media window), and of [g] it writes the
    external-call flag only, and only when it answers [True]; a call that
    does not look external leaves the state as it was, without a poll. *)
Theorem check_addon_external_call_flag (fuel : nat) (prop : string)
    (s s' : state W) (b : bool) :
  _check_addon_external_call env fuel prop s = (Ret b, s') ->
  b = looks_external env s
  /\ g s' = (if b then set_IS_ADDON_EXTERNAL_CALL true (g s) else g s)
  /\ (b = false -> s' = s).
Proof.
  unfold _check_addon_external_call, looks_external, bind, get_g, read.
  destruct (negb (String.eqb _ _) || negb _).
  - pose proof (wait_for_service_g fuel prop 0 s) as Hg.
    destruct (wait_for_service env fuel prop 0 s) as [[sec | e |] s1]; try discriminate.
    unfold debug, emit, put_g, ret. cbn. intros [= <- <-]. cbn in *.
    rewrite Hg. split; [reflexivity |]. split; [reflexivity | discriminate].
  - unfold ret. intros [= <- <-]. repeat split.
Qed.

(** X16.  An external call that finds the service running does not wait: one
    poll, no sleep, zero seconds logged, and the flag is set. *)
Theorem check_addon_external_call_ready (fuel : nat) (prop : string)
    (s s1 : state W) (status value : pyvalue) :
  looks_external env s = true ->
  _get_service_status env prop s = (Ret status, s1) ->
  py_get status "status" = Ok value ->
  py_eq_str value "running" = true ->
  _check_addon_external_call env (S fuel) prop s
  = (Ret true,
     State
       (output env
          (EvLog LDebug
             "Add-on was initiated by an external call - workaround enabled time elapsed {}s"
             [PyInt 0]) (world s1))
       (set_IS_ADDON_EXTERNAL_CALL true (g s))
       (trace s1
        ++ [EvLog LDebug
              "Add-on was initiated by an external call - workaround enabled time elapsed {}s"
              [PyInt 0]])).
Proof.
  intros Hext Hstatus Hget Hrunning.
  pose proof (get_service_status_g prop s) as Hg. rewrite Hstatus in Hg. cbn in Hg.
  unfold _check_addon_external_call, bind, get_g, read.
  unfold looks_external in Hext. rewrite Hext.
  cbn [wait_for_service]. unfold bind. rewrite Hstatus. unfold lift. rewrite Hget.
  rewrite Hrunning. unfold ret, debug, emit, put_g, record. cbn. rewrite Hg. reflexivity.
Qed.

(** X17.  An external call during a shutdown does not wait either: when Kodi
    has asked to abort, the guard leaves after the first poll and before any
    sleep. *)
Theorem check_addon_external_call_abort (fuel : nat) (prop : string)
    (s s1 : state W) (status value : pyvalue) (w2 : W) :
  looks_external env s = true ->
  _get_service_status env prop s = (Ret status, s1) ->
  py_get status "status" = Ok value ->
  py_eq_str value "running" = false ->
  abortRequested env (world s1) = (true, w2) ->
  exists s' : state W,
    _check_addon_external_call env (S fuel) prop s = (Ret true, s')
    /\ trace s'
       = trace s1
         ++ [EvAbortRequested;
             EvLog LDebug
               "Add-on was initiated by an external call - workaround enabled time elapsed {}s"
               [PyInt 0]].
Proof.
  intros Hext Hstatus Hget Hrunning Habort.
  unfold _check_addon_external_call, bind, get_g, read.
  unfold looks_external in Hext. rewrite Hext.
  cbn [wait_for_service]. unfold bind. rewrite Hstatus. unfold lift. rewrite Hget.
  rewrite Hrunning. change (Qle_bool limit_sec 0) with false. cbv iota.
  unfold query. rewrite Habort. cbn.
  eexists. split; [reflexivity |]. cbn. rewrite <- app_assoc. reflexivity.
Qed.

Lemma limit_not_reached (k : nat) (sec : Q) :
  (k < 20)%nat -> sec == inject_Z (Z.of_nat k) * poll_interval ->
  Qle_bool limit_sec sec = false.
Proof.
  intros Hk Hsec. destruct (Qle_bool limit_sec sec) eqn:Hle; [| reflexivity].
  apply Qle_bool_iff in Hle. rewrite Hsec in Hle. unfold Qle in Hle. simpl in Hle. lia.
Qed.

(** The loop when the property stays unset, nobody aborts and every sleep
    runs its time: from [k] half seconds it takes the [20 - k] sleeps that
    are left.  [down] holds of the worlds the loop goes through. *)
Lemma wait_for_service_full (prop : string) (down : W -> Prop) (n : nat) :
  (forall w : W, down w ->
     exists w' : W, getProperty env prop w = (Ok "", w') /\ down w') ->
  (forall w : W, down w ->
     exists w' : W, abortRequested env w = (false, w') /\ down w') ->
  (forall w : W, down w ->
     exists w' : W, waitForAbort env poll_interval w = (false, w') /\ down w') ->
  forall (k fuel : nat) (sec : Q) (s : state W),
    down (world s) ->
    (k + n = 20)%nat ->
    sec == inject_Z (Z.of_nat k) * poll_interval ->
    exists (sec' : Q) (s' : state W) (evs : list event),
      wait_for_service env (S n + fuel) prop sec s = (Ret sec', s')
      /\ sec' == limit_sec
      /\ trace s' = trace s ++ evs
      /\ polls evs = S n
      /\ waits evs = n.
Proof.
  intros Hunset Hnoabort Hsleep.
  induction n as [| n IH]; intros k fuel sec s Hdown Hk Hsec.
  - destruct (Hunset (world s) Hdown) as (w & Hread & _).
    assert (k = 20%nat) by lia. subst k.
    exists sec, (record (EvGetProperty prop) s w), [EvGetProperty prop].
    split.
    + cbn [Nat.add wait_for_service]. unfold bind at 1.
      unfold _get_service_status, try_except, bind, call. rewrite Hread. cbn.
      rewrite (limit_reached sec Hsec). reflexivity.
    + split; [rewrite Hsec; reflexivity |]. repeat split.
  - destruct (Hunset (world s) Hdown) as (w & Hread & Hdown1).
    set (s1 := record (EvGetProperty prop) s w).
    destruct (Hnoabort w Hdown1) as (w2 & Habort & Hdown2).
    set (s2 := record EvAbortRequested s1 w2).
    destruct (Hsleep w2 Hdown2) as (w3 & Hwait & Hdown3).
    set (s3 := record (EvWaitForAbort poll_interval) s2 w3).
    destruct (IH (S k) fuel (sec + poll_interval)%Q s3 Hdown3 ltac:(lia)
                (next_half_second k sec Hsec))
      as (sec' & s' & evs & Hrun & Hsec' & Htrace & Hpolls & Hwaits).
    exists sec', s', ([EvGetProperty prop; EvAbortRequested; EvWaitForAbort poll_interval] ++ evs).
    split.
    + change (S (S n) + fuel)%nat with (S (S n + fuel)).
      cbn [wait_for_service]. unfold bind at 1.
      unfold _get_service_status, try_except, bind at 1, call. rewrite Hread. cbn [String.eqb].
      unfold ret at 1. fold s1. unfold bind at 1. cbn [lift py_get].
      cbn [py_eq_str default]. rewrite lookup_empty. cbn [default py_eq_str].
      rewrite (limit_not_reached k sec ltac:(lia) Hsec).
      unfold bind at 1. unfold query at 1. change (world s1) with w. rewrite Habort. fold s2.
      unfold bind at 1. unfold query at 1. change (world s2) with w2. rewrite Hwait. fold s3.
      exact Hrun.
    + split; [exact Hsec' |]. split.
      * rewrite Htrace. cbn. rewrite <- !app_assoc. reflexivity.
      * unfold polls, waits in *. cbn. split; lia.
Qed.

(** X18.  The bound of the wait is reached: for an external call, as long as
    the status property stays unset, Kodi does not ask to abort and every
    sleep runs its time ([down]), the guard polls 21 times and sleeps 20
    times, ten seconds in all, and then answers [True]. *)
Theorem check_addon_external_call_timeout (fuel : nat) (prop : string)
    (down : W -> Prop) (s : state W) :
  (forall w : W, down w ->
     exists w' : W, getProperty env prop w = (Ok "", w') /\ down w') ->
  (forall w : W, down w ->
     exists w' : W, abortRequested env w = (false, w') /\ down w') ->
  (forall w : W, down w ->
     exists w' : W, waitForAbort env poll_interval w = (false, w') /\ down w') ->
  down (world s) ->
  looks_external env s = true ->
  exists (s' : state W) (evs : list event),
    _check_addon_external_call env (max_polls + fuel) prop s = (Ret true, s')
    /\ trace s' = trace s ++ evs
    /\ polls evs = max_polls
    /\ waits evs = (max_polls - 1)%nat
    /\ inject_Z (Z.of_nat (waits evs)) * poll_interval == limit_sec.
Proof.
  intros Hunset Hnoabort Hsleep Hdown Hext.
  destruct (wait_for_service_full prop down 20 Hunset Hnoabort Hsleep 0 fuel 0 s Hdown eq_refl)
    as (sec & s1 & evs & Hrun & Hsec & Htrace & Hpolls & Hwaits); [reflexivity |].
  change (max_polls + fuel)%nat with (21 + fuel)%nat.
  unfold _check_addon_external_call, bind, get_g, read.
  unfold looks_external in Hext. rewrite Hext. rewrite Hrun.
  eexists _, (evs ++ [_]). split; [reflexivity |]. split.
  - cbn. rewrite Htrace. rewrite <- app_assoc. reflexivity.
  - unfold polls, waits in *. rewrite !List.filter_app, !length_app. cbn.
    rewrite Hpolls, Hwaits. repeat split.
Qed.

(** *** [run], beyond the top-level handler *)

(** The first part of [run] from what the guard and the probe answer. *)
Lemma run_startup_decides (fuel : nat) (argv : list string) (s s1 s2 : state W)
    (external : bool) (service_status : pyvalue) :
  let s0 := booted env argv s in
  _check_addon_external_call env fuel (status_property env s0) s0 = (Ret external, s1) ->
  _get_service_status env (status_property env s0) s1 = (Ret service_status, s2) ->
  run_startup env fuel argv s
  = match py_get service_status "status" with
    | Err e => (Raise e, s2)
    | Ok status =>
        if py_eq_str status "running" then (Ret true, s2)
        else if external then (Ret false, s2)
        else if py_eq_str status "error" then
          match py_get service_status "message" with
          | Err e => (Raise e, s2)
          | Ok message =>
              (Ret false,
               after env
                 (EvShowErrorInfo (get_local_string env 30105 (world s2))
                    (str_format env (get_local_string env 30240 (world s2)) message)
                    false false) s2)
          end
        else (Ret false, after env (EvShowBackendNotReady None) s2)
    end.
Proof.
  intros s0 Hguard Hprobe. unfold run_startup.
  unfold bind at 1. unfold query at 1. subst s0. unfold booted, status_property in *.
  destruct (init_globals env argv (world s)) as [gl w].
  unfold bind at 1. unfold put_g at 1. unfold bind at 1. unfold emit at 1.
  unfold bind at 1. unfold info at 1. unfold emit at 1.
  unfold bind at 1. unfold info at 1. unfold emit at 1.
  unfold bind at 1. unfold read at 1.
  unfold after, record in Hguard, Hprobe. cbn [world g trace] in Hguard, Hprobe.
  unfold record. cbn [world g trace].
  unfold bind at 1. rewrite Hguard.
  unfold bind at 1. rewrite Hprobe.
  unfold bind at 1. unfold lift at 1.
  destruct service_status as [| b | z | q | str | l | d]; try reflexivity.
  cbn [py_get]. destruct (py_eq_str _ "running"); [reflexivity |].
  cbn [negb]. destruct external; [reflexivity |]. cbn [negb].
  unfold bind at 1. unfold bind at 1. unfold lift at 1.
  destruct (py_eq_str _ "error"); reflexivity.
Qed.

(** X19.  The service is not running and the user is browsing the add-on:
    [run] shows the error dialog with the message of the service when the
    status is [error], the "not ready" dialog otherwise, signals the failure
    and calls neither the upgrade check nor the router. *)
Theorem run_service_not_running (fuel : nat) (argv : list string) (s s2 : state W)
    (d : gmap string pyvalue) :
  let s0 := booted env argv s in
  let status := default PyNone (d !! "status") in
  looks_external env s0 = false ->
  _get_service_status env (status_property env s0) s0 = (Ret (PyDict d), s2) ->
  py_eq_str status "running" = false ->
  let dialog :=
    if py_eq_str status "error" then
      EvShowErrorInfo (get_local_string env 30105 (world s2))
        (str_format env (get_local_string env 30240 (world s2)) (default PyNone (d !! "message")))
        false false
    else EvShowBackendNotReady None in
  run env fuel argv s
  = (Ret false,
     after env EvLogTimeTrace
       (after env (EvEndOfDirectory (PLUGIN_HANDLE (g s2)) false) (after env dialog s2))).
Proof.
  intros s0 status Hext Hprobe Hrunning dialog.
  assert (Hguard : _check_addon_external_call env fuel (status_property env s0) s0
                   = (Ret false, s0)).
  { unfold _check_addon_external_call, bind, get_g, read.
    unfold looks_external in Hext. rewrite Hext. reflexivity. }
  pose proof (run_startup_decides fuel argv s s0 s2 false (PyDict d) Hguard Hprobe) as Hstart.
  cbn [py_get] in Hstart. fold status in Hstart. rewrite Hrunning in Hstart.
  assert (Hstart' : run_startup env fuel argv s = (Ret false, after env dialog s2)).
  { rewrite Hstart. unfold dialog. destruct (py_eq_str status "error"); reflexivity. }
  rewrite (run_finish fuel argv s _ _ false false Hstart' eq_refl). reflexivity.
Qed.

(** X20.  The service is not running and the call is external: [run] has
    waited in the guard, shows no dialog, and signals the failure. *)
Theorem run_external_not_running (fuel : nat) (argv : list string) (s s1 s2 : state W)
    (d : gmap string pyvalue) :
  let s0 := booted env argv s in
  _check_addon_external_call env fuel (status_property env s0) s0 = (Ret true, s1) ->
  _get_service_status env (status_property env s0) s1 = (Ret (PyDict d), s2) ->
  py_eq_str (default PyNone (d !! "status")) "running" = false ->
  run env fuel argv s
  = (Ret false,
     after env EvLogTimeTrace (after env (EvEndOfDirectory (PLUGIN_HANDLE (g s2)) false) s2)).
Proof.
  intros s0 Hguard Hprobe Hrunning.
  pose proof (run_startup_decides fuel argv s s1 s2 true (PyDict d) Hguard Hprobe) as Hstart.
  cbn [py_get] in Hstart. rewrite Hrunning in Hstart.
  rewrite (run_finish fuel argv s _ _ false false Hstart eq_refl). reflexivity.
Qed.

(** X21.  A status document that [json.loads] decodes to anything but a
    mapping makes [run] raise the [AttributeError] of [.get] at line 182:
    no dialog, no [endOfDirectory], no [log_time_trace]. *)
Theorem run_status_not_a_mapping (fuel : nat) (argv : list string) (s s1 s2 : state W)
    (external : bool) (service_status : pyvalue) :
  let s0 := booted env argv s in
  _check_addon_external_call env fuel (status_property env s0) s0 = (Ret external, s1) ->
  _get_service_status env (status_property env s0) s1 = (Ret service_status, s2) ->
  (forall d : gmap string pyvalue, service_status <> PyDict d) ->
  run env fuel argv s
  = (Raise (Exn AttributeError
              ("'" +:+ py_type_name service_status +:+ "' object has no attribute 'get'")),
     s2).
Proof.
  intros s0 Hguard Hprobe Hshape.
  pose proof (run_startup_decides fuel argv s s1 s2 external service_status Hguard Hprobe)
    as Hstart.
  unfold run, bind. rewrite Hstart.
  destruct service_status; try reflexivity. exfalso. eapply Hshape. reflexivity.
Qed.

(** X22.  An unknown root segment, end to end: the service runs, it is not
    the first run, the stored credentials are valid.  The
    [InvalidPathError] of the router passes the login wrapper and reaches
    the last [except] clause of [run]: the traceback is logged, the add-on
    error dialog gets the exception, the failure is signalled. *)
Theorem run_unknown_root (fuel : nat) (argv : list string) (s s1 : state W)
    (root : string) (rest : list string) (w : W) :
  run_startup env (S fuel) argv s = (Ret true, s1) ->
  IS_ADDON_FIRSTRUN (g s1) = false ->
  parse_path (REQUEST_PATH (g s1)) = root :: rest ->
  ~ In root (recognized (g s1)) ->
  check_credentials env (world s1) = (Ok true, w) ->
  let failure := Exn InvalidPathError ("No root handler for path " +:+ join_path (root :: rest)) in
  exists s' : state W,
    run env (S fuel) argv s = (Ret false, s')
    /\ trace s'
       = trace s1
         ++ [EvCheckCredentials;
             EvLog LDebug "Routing navigation request" [];
             EvLog LError (py2_decode env (format_exc env failure)) [];
             EvShowAddonErrorInfo failure;
             EvEndOfDirectory (PLUGIN_HANDLE (g s1)) false;
             EvLogTimeTrace].
Proof.
  intros Hstart Hfirst Hpath Hroot Hcred failure.
  destruct (not_recognized_inv _ _ Hroot) as (Hp & Hs & Hx & Hd & Ha & Hl & Hh).
  set (s2 := record EvCheckCredentials s1 w).
  assert (Hbody : route_wrapped env (root :: rest) s2 = (Raise failure, routing env s2)).
  { rewrite route_wrapped_start. cbv beta iota zeta.
    change (g s2) with (g s1).
    rewrite (eqb_false_of_neq _ _ Hp), (eqb_false_of_neq _ _ Hs), (eqb_false_of_neq _ _ Hx).
    rewrite (get_nav_handler_unknown _ _ Hd Ha Hl Hh). reflexivity. }
  assert (Hroute : route env (S fuel) (root :: rest) s1 = (Raise failure, routing env s2)).
  { unfold route. rewrite (lazy_login_valid "route" _ fuel _ s1 w Hcred).
    - exact Hbody.
    - intros e s' He. fold s2 in He. rewrite Hbody in He. injection He as <- _. reflexivity. }
  assert (Hdispatch : run_dispatch env (S fuel) s1 = (Raise failure, routing env s2)).
  { unfold run_dispatch. unfold bind at 1. unfold get_g at 1. rewrite Hfirst.
    unfold bind at 1. unfold ret at 1. unfold bind at 1. unfold get_g at 1.
    cbn [andb]. rewrite Hpath. exact Hroute. }
  set (s3 := after env (EvShowAddonErrorInfo failure)
               (after env (EvLog LError (py2_decode env (format_exc env failure)) [])
                  (routing env s2))).
  assert (Htry : try_except (run_dispatch env (S fuel)) (run_except env) s1 = (Ret false, s3)).
  { unfold try_except. rewrite Hdispatch. reflexivity. }
  rewrite (run_finish (S fuel) argv s s1 s3 true false Hstart Htry).
  eexists. split; [reflexivity |].
  cbn. rewrite <- !app_assoc. reflexivity.
Qed.

(** X23.  The cancel of the first run touches play requests only: on a first
    run, whatever the upgrade check answers, a request whose first segment is
    not the play segment (the path is empty, or goes to [play_strm] or to a
    handler) is routed as on any other run, right after the upgrade check or,
    on a first install, after the configuration wizard has returned.  When
    the wizard raises, its exception ends the [try] block and nothing is
    routed. *)
Theorem run_dispatch_cancel_play_only (fuel : nat) (s : state W)
    (is_first_run_install cancel_playback : bool) (w1 : W) :
  IS_ADDON_FIRSTRUN (g s) = true ->
  check_addon_upgrade env (world s) = (Ok (is_first_run_install, cancel_playback), w1) ->
  hd_error (parse_path (REQUEST_PATH (g s))) <> Some (MODE_PLAY (g s)) ->
  let s1 := record EvCheckAddonUpgrade s w1 in
  run_dispatch env fuel s
  = if is_first_run_install then
      match run_addon_configuration env w1 with
      | (Ok _, w2) =>
          route env fuel (parse_path (REQUEST_PATH (g s)))
            (record EvRunAddonConfiguration s1 w2)
      | (Err e, w2) => (Raise e, record EvRunAddonConfiguration s1 w2)
      end
    else route env fuel (parse_path (REQUEST_PATH (g s))) s1.
Proof.
  intros Hfirst Hupgrade Hhead s1.
  assert (Hplay : forall b : bool,
            b && existsb (String.eqb (MODE_PLAY (g s)))
                   (firstn 1 (parse_path (REQUEST_PATH (g s)))) = false).
  { intros b. apply andb_false_iff. right.
    destruct (parse_path (REQUEST_PATH (g s))) as [| item items]; [reflexivity |].
    cbn. destruct (String.eqb (MODE_PLAY (g s)) item) eqn:Heq; [| reflexivity].
    apply String.eqb_eq in Heq. subst item. exfalso. apply Hhead. reflexivity. }
  unfold run_dispatch.
  unfold bind at 1. unfold get_g at 1. rewrite Hfirst.
  unfold bind at 1. unfold bind at 1. unfold call at 1. rewrite Hupgrade. fold s1.
  destruct is_first_run_install.
  - unfold bind at 1. unfold call at 1. change (world s1) with w1.
    destruct (run_addon_configuration env w1) as [[[] | e] w2]; [| reflexivity].
    unfold ret at 1. unfold bind at 1. unfold get_g at 1.
    change (g (record EvRunAddonConfiguration s1 w2)) with (g s).
    rewrite Hplay. reflexivity.
  - unfold bind at 1. unfold ret at 1. unfold ret at 1. unfold bind at 1. unfold get_g at 1.
    change (g s1) with (g s). rewrite Hplay. reflexivity.
Qed.

End Properties.

(** * The properties on concrete invocations *)

Section Concrete.
Import Script Example.

Lemma prefix_append (sub post : string) : String.prefix sub (sub +:+ post) = true.
Proof.
  induction sub as [| c sub IH]; [destruct post; reflexivity |].
  change (String c sub +:+ post) with (String c (sub +:+ post)). cbn.
  destruct (ascii_dec c c) as [_ | Hne]; [exact IH | contradiction].
Qed.

Lemma containsb_complete (sub s : string) : contains sub s -> containsb sub s = true.
Proof.
  intros (pre & post & ->). induction pre as [| c pre IH].
  - change (EmptyString +:+ sub +:+ post) with (sub +:+ post).
    pose proof (prefix_append sub post) as Hprefix.
    destruct (sub +:+ post); cbn [containsb]; rewrite Hprefix; reflexivity.
  - change (String c pre +:+ sub +:+ post) with (String c (pre +:+ sub +:+ post)).
    cbn [containsb]. rewrite IH. apply orb_true_r.
Qed.

(** C1, the claim as the spec states it, refuted: the session has expired,
    the wrapped function raises once, the recovery login answers [False];
    the wrapper returns [False] and the wrapped function has been called
    once, so it was not retried. *)
Lemma lazy_login_failed_login_no_retry :
  let r := lazy_login kodi "list_profiles" list_profiles 1 tt (start login_refused) in
  list_profiles tt (snd (_check_valid_credentials kodi 1 (start login_refused)))
  = (Raise session_expired,
     State (with_credentials [] (with_calls [] login_refused)) (globals login_refused)
           [EvCheckCredentials; EvCall "list_profiles"])
  /\ fst r = Ret false
  /\ trace (snd r)
     = [EvCheckCredentials; EvCall "list_profiles";
        EvLog LDebug "Tried to perform an action without being logged in" [];
        EvCheckCredentials; EvLogin (Some false)]
  /\ recovery_logins (trace (snd r)) = 1%nat
  /\ wrapped_calls (trace (snd r)) = 1%nat.
Proof. vm_compute. repeat split. Qed.

(** C1 on a session that is refused twice: one recovery login, one retry,
    and the second failure is the one the caller sees. *)
Lemma lazy_login_recovery_witness :
  let r := lazy_login kodi "list_profiles" list_profiles 1 tt (start expired_twice) in
  fst r = Raise still_expired
  /\ recovery_logins (trace (snd r)) = 1%nat
  /\ wrapped_calls (trace (snd r)) = 2%nat.
Proof.
  edestruct (lazy_login_recovery kodi "list_profiles" list_profiles 1 tt
               (start expired_twice)) as (_ & Hsecond & _).
  - vm_compute. reflexivity.
  - vm_compute. reflexivity.
  - reflexivity.
  - vm_compute. reflexivity.
  - vm_compute. reflexivity.
  - cbv zeta. erewrite (Hsecond eq_refl); [| vm_compute; reflexivity | reflexivity].
    vm_compute. repeat split.
Defined.

(** C2, the claim as the spec states it, refuted: the user opens the add-on,
    the directory is listed, [run] returns after a success and has not
    called [endOfDirectory]. *)
Lemma run_success_not_signalled :
  let r := run kodi 21 [] (start (browsing "")) in
  fst r = Ret true
  /\ existsb is_end_of_directory (trace (snd r)) = false
  /\ List.last (trace (snd r)) EvResetLogLevel = EvLogTimeTrace.
Proof. vm_compute. repeat split. Qed.

(** C2 on a request for an action the library handler does not have. *)
Lemma run_signals_failure_witness :
  let r := run kodi 21 [] (start (browsing "library/export")) in
  fst r = Ret false
  /\ exists evs : list event,
       Forall (fun ev => is_end_of_directory ev = false) evs
       /\ trace (snd r) = [] ++ evs ++ [EvEndOfDirectory 1 false] ++ [EvLogTimeTrace].
Proof.
  split; [vm_compute; reflexivity |].
  apply (run_signals_failure kodi 21 [] (start (browsing "library/export"))
           (snd (run kodi 21 [] (start (browsing "library/export")))) false).
  vm_compute. reflexivity.
Defined.

(** C3, the claim as the spec states it, refuted, twice.  The status property
    holds the JSON document [[]]: the probe returns a list, [.get] raises
    [AttributeError] at line 182, outside the [try], and [run] raises.  The
    action of the directory handler calls [sys.exit(0)]: [SystemExit] is no
    [Exception], no [except] clause of [run] matches, and [run] raises.  In
    both runs there is no dialog and no [endOfDirectory]. *)
Lemma run_raises_on_list_status :
  (let r := run kodi 21 [] (start (with_status (Some "[]") (browsing ""))) in
   fst r = Raise (Exn AttributeError "'list' object has no attribute 'get'")
   /\ existsb is_dialog (trace (snd r)) = false
   /\ existsb is_end_of_directory (trace (snd r)) = false)
  /\ (let r := run kodi 21 [] (start action_exits) in
      fst r = Raise (Exn SystemExit "0")
      /\ existsb is_dialog (trace (snd r)) = false
      /\ existsb is_end_of_directory (trace (snd r)) = false).
Proof. vm_compute. repeat split. Qed.

(** C3 on a request for an action the library handler does not have: the
    [InvalidPathError] of the router ends in the add-on error dialog. *)
Lemma run_dispatch_errors_caught_witness :
  let w := browsing "library/export" in
  let s1 := snd (run_startup kodi 21 [] (start w)) in
  run_dispatch kodi 21 s1
  = (Raise (Exn InvalidPathError "Unknown action export"),
     snd (run_dispatch kodi 21 s1))
  /\ (forall e : exn,
        fst (run kodi 21 [] (start w)) = Raise e -> is_exception (cls e) = false)
  /\ exists (s3 : state World) (evs : list event) (dialog : event),
       run kodi 21 [] (start w) = (Ret false, s3)
       /\ trace s3 = trace (snd (run_dispatch kodi 21 s1)) ++ evs
       /\ In dialog evs
       /\ is_dialog dialog = true
       /\ In (EvEndOfDirectory 1 false) evs.
Proof.
  intros w s1.
  assert (Hstart : run_startup kodi 21 [] (start w) = (Ret true, s1))
    by (vm_compute; reflexivity).
  assert (Hdispatch : run_dispatch kodi 21 s1
                      = (Raise (Exn InvalidPathError "Unknown action export"),
                         snd (run_dispatch kodi 21 s1)))
    by (vm_compute; reflexivity).
  destruct (run_dispatch_errors_caught kodi 21 [] (start w) s1 true Hstart)
    as (Hcaught & _ & Honly & _).
  split; [exact Hdispatch |]. split; [exact Honly |].
  exact (Hcaught _ _ eq_refl Hdispatch eq_refl).
Defined.

(** C4, the claim as the spec states it, refuted: for [library/export] the
    message of the error is "Unknown action export"; the path
    [library/export] does not occur in it. *)
Lemma route_unknown_action_omits_root :
  let r := route_wrapped kodi ["library"; "export"] (start (browsing "library/export")) in
  fst r = Raise (Exn InvalidPathError "Unknown action export")
  /\ ~ contains (join_path ["library"; "export"]) "Unknown action export".
Proof.
  split; [vm_compute; reflexivity |].
  intros H. apply containsb_complete in H. vm_compute in H. discriminate.
Qed.

(** C4 on [library/export]. *)
Lemma route_unknown_action_witness :
  fst (route_wrapped kodi ["library"; "export"] (start (browsing "library/export")))
  = Raise (Exn InvalidPathError ("Unknown action " +:+ join_path ["export"])).
Proof.
  erewrite (route_unknown_action kodi "library" "export" []
              (start (browsing "library/export")) LibraryActionExecutor).
  - reflexivity.
  - vm_compute. discriminate.
  - vm_compute. discriminate.
  - discriminate.
  - vm_compute. reflexivity.
  - vm_compute. reflexivity.
  - vm_compute. reflexivity.
  - reflexivity.
Defined.

(** C5 on [foo/export]. *)
Lemma route_unknown_root_witness :
  fst (route_wrapped kodi ["foo"; "export"] (start (browsing "foo/export")))
  = Raise (Exn InvalidPathError "No root handler for path foo/export")
  /\ contains "foo/export" "No root handler for path foo/export"
  /\ fst (route kodi 1 ["foo"; "export"] (start (browsing "foo/export")))
     = Raise (Exn InvalidPathError "No root handler for path foo/export").
Proof.
  assert (Hroot : ~ In "foo" (recognized (g (start (browsing "foo/export"))))).
  { vm_compute. intros H. repeat (destruct H as [H | H]; [discriminate H |]). exact H. }
  destruct (route_unknown_root kodi "foo" ["export"] (start (browsing "foo/export")) Hroot)
    as (Hbody & Hnames & Hroute).
  split; [rewrite Hbody; reflexivity |]. split; [exact Hnames |].
  erewrite Hroute; [reflexivity | vm_compute; reflexivity].
Defined.

(** C6 on a property that is not set and on one that is not JSON. *)
Lemma get_service_status_tolerant_witness :
  fst (_get_service_status kodi status_key (start (with_status None (browsing ""))))
  = Ret (PyDict ∅)
  /\ fst (_get_service_status kodi status_key
            (start (with_status (Some "{status: running") (browsing ""))))
     = Ret (PyDict ∅).
Proof.
  split.
  - destruct (get_service_status_tolerant kodi status_key
                (start (with_status None (browsing ""))) (Ok "")
                (with_status None (browsing "")) eq_refl) as [_ Hempty].
    rewrite Hempty; [reflexivity | left; reflexivity].
  - destruct (get_service_status_tolerant kodi status_key
                (start (with_status (Some "{status: running") (browsing "")))
                (Ok "{status: running")
                (with_status (Some "{status: running") (browsing "")) eq_refl)
      as [_ Hempty].
    rewrite Hempty; [reflexivity |].
    right. eexists. vm_compute. reflexivity.
Defined.

(** C7 on a widget call while the service never comes up: the guard polls 21
    times and sleeps 20 times. *)
Lemma external_call_wait_bounded_witness :
  (exists (out : outcome bool) (s' : state World) (evs : list event),
     _check_addon_external_call kodi 21 status_key (start (widget "")) = (out, s')
     /\ out <> OutOfFuel
     /\ trace s' = trace (start (widget "")) ++ evs
     /\ (polls evs <= max_polls)%nat
     /\ (waits evs <= max_polls - 1)%nat
     /\ (inject_Z (Z.of_nat (waits evs)) * poll_interval <= limit_sec)%Q)
  /\ (let r := _check_addon_external_call kodi 21 status_key (start (widget "")) in
      fst r = Ret true
      /\ polls (trace (snd r)) = 21%nat
      /\ waits (trace (snd r)) = 20%nat).
Proof.
  split.
  - apply (external_call_wait_bounded kodi 21 status_key (start (widget ""))).
    vm_compute. lia.
  - vm_compute. repeat split.
Defined.

(** C8 on a play request on the first run after an upgrade. *)
Lemma run_cancels_playback_witness :
  let w := upgraded "play/70211656" in
  exists (s' : state World) (evs : list event),
    run kodi 21 [] (start w) = (Ret false, s')
    /\ trace s' = trace (snd (run_startup kodi 21 [] (start w))) ++ evs
    /\ Forall (fun ev => routing_event ev = false) evs
    /\ In (EvEndOfDirectory 1 false) evs.
Proof.
  intros w.
  apply (run_cancels_playback kodi 21 [] (start w)
           (snd (run_startup kodi 21 [] (start w))) false w ["70211656"]).
  - vm_compute. reflexivity.
  - reflexivity.
  - reflexivity.
  - vm_compute. reflexivity.
Defined.

(** C9 on [extrafanart/fanart1.jpg]. *)
Lemma route_extrafanart_ignored_witness :
  let s := start (browsing "extrafanart/fanart1.jpg") in
  fst (route_wrapped kodi ["extrafanart"; "fanart1.jpg"] s) = Ret false
  /\ fst (route kodi 1 ["extrafanart"; "fanart1.jpg"] s) = Ret false
  /\ existsb handler_event (trace (snd (route kodi 1 ["extrafanart"; "fanart1.jpg"] s)))
     = false.
Proof.
  intros s.
  assert (Hplay : MODE_PLAY (g s) <> "extrafanart") by (vm_compute; discriminate).
  assert (Hstrm : MODE_PLAY_STRM (g s) <> "extrafanart") by (vm_compute; discriminate).
  destruct (route_extrafanart_ignored kodi ["fanart1.jpg"] s Hplay Hstrm)
    as [Hbody Hroute].
  split; [rewrite Hbody; reflexivity |].
  destruct (Hroute 0%nat (world s) eq_refl) as (Hresult & _ & Hemits).
  split; [rewrite Hresult; reflexivity |].
  unfold emits in Hemits. rewrite Hemits. reflexivity.
Defined.

(** C10 on a library handler whose constructor raises [AttributeError]: the
    error is the one a missing action gives. *)
Lemma execute_constructor_error_masked_witness :
  fst (_execute kodi LibraryActionExecutor ["export"] ∅
         (start (broken_library "library/export")))
  = Raise (Exn InvalidPathError "Unknown action export")
  /\ fst (_execute kodi LibraryActionExecutor ["export"] ∅
            (start (browsing "library/export")))
     = fst (_execute kodi LibraryActionExecutor ["export"] ∅
              (start (broken_library "library/export"))).
Proof.
  destruct (execute_constructor_error_masked kodi LibraryActionExecutor ["export"] ∅
              (start (broken_library "library/export"))
              (broken_library "library/export")
              (Exn AttributeError "'NoneType' object has no attribute 'get'")
              eq_refl eq_refl) as [Hmasked Hsame].
  split; [exact Hmasked |].
  eapply Hsame; [vm_compute; reflexivity | vm_compute; reflexivity | reflexivity].
Defined.

(** ** The further properties on concrete invocations *)

(** X1 on a function that returns [True]. *)
Lemma lazy_login_calls_through_witness :
  lazy_login kodi "list_profiles" list_profiles 1 tt (start (browsing ""))
  = (Ret true,
     State (with_calls [] (with_credentials [] (browsing ""))) (globals (browsing ""))
           ([] ++ [EvCheckCredentials; EvCall "list_profiles"])).
Proof.
  apply (lazy_login_calls_through kodi "list_profiles" (fun _ : unit => next_call) 0 tt
           (start (browsing "")) (with_credentials [] (browsing ""))
           (with_calls [] (with_credentials [] (browsing ""))) (Ok true)).
  - reflexivity.
  - reflexivity.
  - intros e He. discriminate He.
Defined.

(** X2 on two wrong passwords and a prompt the user leaves: three prompts,
    no call. *)
Lemma lazy_login_cancelled_witness :
  let r := lazy_login kodi "list_profiles" list_profiles 3 tt (start two_typos_then_cancel) in
  fst r = Ret false
  /\ trace (snd r) = prompts 3
  /\ wrapped_calls (trace (snd r)) = 0%nat.
Proof.
  cbv zeta. change 3%nat with (S 2 + 0)%nat.
  erewrite (lazy_login_cancelled kodi "list_profiles" list_profiles 2 0 tt
              (start two_typos_then_cancel)); cycle 1.
  - vm_compute. reflexivity.
  - vm_compute. reflexivity.
  - vm_compute. reflexivity.
  - reflexivity.
  - repeat split.
Defined.

(** X3 on one wrong password. *)
Lemma check_valid_credentials_retry_witness :
  exists s' : state World,
    _check_valid_credentials kodi 2 (start one_typo) = (Ret true, s')
    /\ world s' = with_logins [] (with_credentials [] one_typo)
    /\ trace s' = [] ++ prompts 2.
Proof.
  eapply (check_valid_credentials_retry kodi 1 0 (start one_typo)).
  - vm_compute. reflexivity.
  - vm_compute. reflexivity.
  - vm_compute. reflexivity.
Defined.

(** X4 on a credential store that raises. *)
Lemma check_valid_credentials_missing_witness :
  check_credentials kodi (world (start store_empty))
  = (Err prompt_left, world (snd (_check_valid_credentials kodi 1 (start store_empty)))).
Proof.
  apply (check_valid_credentials_missing kodi 1 (start store_empty)).
  - vm_compute. reflexivity.
  - reflexivity.
Defined.

(** X5 on a function that raises [MissingCredentialsError] at once, and on
    one that raises it after a recovered session. *)
Lemma lazy_login_missing_credentials_witness :
  fst (lazy_login kodi "list_profiles" list_profiles 1 tt (start missing_at_once))
  = Raise prompt_left
  /\ fst (lazy_login kodi "list_profiles" list_profiles 1 tt (start missing_on_retry))
     = Ret false.
Proof.
  split.
  - edestruct (lazy_login_missing_credentials kodi "list_profiles" list_profiles 1 tt
                 (start missing_at_once)) as [Hfirst _].
    + vm_compute. reflexivity.
    + vm_compute. reflexivity.
    + rewrite Hfirst; reflexivity.
  - edestruct (lazy_login_missing_credentials kodi "list_profiles" list_profiles 1 tt
                 (start missing_on_retry)) as [_ Hretry].
    + vm_compute. reflexivity.
    + vm_compute. reflexivity.
    + erewrite Hretry; [reflexivity | reflexivity | vm_compute; reflexivity
                        | vm_compute; reflexivity | vm_compute; reflexivity | reflexivity].
Defined.

(** X6 on a first login that ends in [LoginValidateError]: the second login
    does not ask for credentials, and the function is called. *)
Lemma lazy_login_recovers_entry_login_witness :
  let r := lazy_login kodi "list_profiles" list_profiles 1 tt (start login_invalid) in
  fst r = Ret true
  /\ wrapped_calls (trace (snd r)) = 1%nat
  /\ In (EvLogin (Some false)) (trace (snd r)).
Proof.
  cbv zeta.
  erewrite (lazy_login_recovers_entry_login kodi "list_profiles" list_profiles 0 tt
              (start login_invalid)); cycle 1.
  - vm_compute. reflexivity.
  - vm_compute. reflexivity.
  - reflexivity.
  - vm_compute. reflexivity.
  - vm_compute. reflexivity.
  - vm_compute. reflexivity.
  - vm_compute. repeat split. auto 10.
Defined.

(** X7 on the modes of the add-on. *)
Lemma get_nav_handler_table_witness :
  let gl := netflix_globals "" false in
  _get_nav_handler gl "play" = None
  /\ _get_nav_handler gl "library" = Some LibraryActionExecutor.
Proof.
  intros gl.
  destruct (get_nav_handler_table gl "play") as [Hnone _].
  destruct (get_nav_handler_table gl "library") as [_ Htable].
  split.
  - apply Hnone. vm_compute. intros H.
    repeat (destruct H as [H | H]; [discriminate H |]). exact H.
  - apply Htable. vm_compute.
    repeat (constructor; [cbn; intros H;
                          repeat (destruct H as [H | H]; [discriminate H |]); exact H |]).
    constructor.
Defined.

(** X8 on [play/70211656]. *)
Lemma route_playback_witness :
  route_wrapped kodi ["play"; "70211656"] (start (browsing "play/70211656"))
  = (Ret true,
     record (EvPlay ["70211656"]) (routing kodi (start (browsing "play/70211656")))
       (with_calls [] (browsing "play/70211656"))).
Proof.
  destruct (route_playback kodi ["70211656"] (start (browsing "play/70211656"))
              (Ok tt) (with_calls [] (browsing "play/70211656"))) as [Hplay _].
  apply Hplay. reflexivity.
Defined.

(** X9 on the empty path: the member [root] of the directory handler is
    called with no segments. *)
Lemma route_dispatches_witness :
  let r := route_wrapped kodi [] (start (browsing "")) in
  fst r = Ret true
  /\ trace (snd r)
     = [EvLog LDebug "Routing navigation request" []; EvInstantiate Directory;
        EvGetAttribute "root"; EvLog LDebug "Invoking action: {}" [PyStr "root"];
        EvInvoke []].
Proof.
  cbv zeta.
  erewrite (route_dispatches kodi [] (start (browsing "")) Directory); cycle 1.
  - vm_compute. discriminate.
  - vm_compute. discriminate.
  - vm_compute. discriminate.
  - vm_compute. reflexivity.
  - vm_compute. reflexivity.
  - vm_compute. reflexivity.
  - vm_compute. reflexivity.
  - vm_compute. reflexivity.
  - split; reflexivity.
Defined.

(** X10 on [extrafanart/fanart1.jpg]. *)
Lemma route_false_only_ignored_witness :
  match ["extrafanart"; "fanart1.jpg"] with
  | item :: _ => item
  | [] => MODE_DIRECTORY (g (start (browsing "extrafanart/fanart1.jpg")))
  end = "extrafanart".
Proof.
  apply (route_false_only_ignored kodi ["extrafanart"; "fanart1.jpg"]
           (start (browsing "extrafanart/fanart1.jpg"))
           (snd (route_wrapped kodi ["extrafanart"; "fanart1.jpg"]
                   (start (browsing "extrafanart/fanart1.jpg"))))).
  vm_compute. reflexivity.
Defined.

(** X11 on an action that raises [AttributeError] while it runs. *)
Lemma execute_action_error_unchanged_witness :
  fst (_execute kodi LibraryActionExecutor ["root"] ∅ (start action_fails))
  = Raise (Exn AttributeError "'NoneType' object has no attribute 'items'").
Proof.
  eapply (execute_action_error_unchanged kodi LibraryActionExecutor ["root"] ∅
            (start action_fails)).
  - vm_compute. reflexivity.
  - vm_compute. reflexivity.
  - vm_compute. reflexivity.
  - vm_compute. reflexivity.
Defined.

(** X12 on a constructor that raises [KeyError]. *)
Lemma execute_other_error_unchanged_witness :
  fst (_execute kodi LibraryActionExecutor ["export"] ∅ (start constructor_key_error))
  = Raise (Exn (OtherError "KeyError") "'library'").
Proof.
  destruct (execute_other_error_unchanged kodi LibraryActionExecutor ["export"] ∅
              (start constructor_key_error) (Exn (OtherError "KeyError") "'library'"))
    as [Hconstructor _].
  - discriminate.
  - rewrite (Hconstructor constructor_key_error eq_refl). reflexivity.
Defined.

(** X14 on [library/export]. *)
Lemma parse_path_join_witness :
  parse_path (join_path ["library"; "export"]) = ["library"; "export"].
Proof.
  apply (parse_path_join ["library"; "export"]). repeat constructor.
Defined.

(** X15 on a widget call that finds the service running. *)
Lemma check_addon_external_call_flag_witness :
  let s := start (with_status (Some doc_running) (widget "")) in
  let r := _check_addon_external_call kodi 1 status_key s in
  true = looks_external kodi s
  /\ IS_ADDON_EXTERNAL_CALL (g (snd r)) = true
  /\ REQUEST_PATH (g (snd r)) = REQUEST_PATH (g s).
Proof.
  intros s r.
  destruct (check_addon_external_call_flag kodi 1 status_key s (snd r) true)
    as (Hext & Hg & _).
  - vm_compute. reflexivity.
  - split; [exact Hext |]. rewrite Hg. split; reflexivity.
Defined.

(** X16 on a widget call that finds the service running. *)
Lemma check_addon_external_call_ready_witness :
  let r := _check_addon_external_call kodi 1 status_key
             (start (with_status (Some doc_running) (widget ""))) in
  fst r = Ret true
  /\ polls (trace (snd r)) = 1%nat
  /\ waits (trace (snd r)) = 0%nat.
Proof.
  cbv zeta.
  erewrite (check_addon_external_call_ready kodi 0 status_key
              (start (with_status (Some doc_running) (widget "")))); cycle 1.
  - reflexivity.
  - vm_compute. reflexivity.
  - vm_compute. reflexivity.
  - reflexivity.
  - vm_compute. repeat split.
Defined.

(** X17 on a widget call while Kodi shuts down. *)
Lemma check_addon_external_call_abort_witness :
  let s := start (with_abort true (widget "")) in
  exists s' : state World,
    _check_addon_external_call kodi 1 status_key s = (Ret true, s')
    /\ trace s'
       = trace (snd (_get_service_status kodi status_key s))
         ++ [EvAbortRequested;
             EvLog LDebug
               "Add-on was initiated by an external call - workaround enabled time elapsed {}s"
               [PyInt 0]].
Proof.
  intros s.
  apply (check_addon_external_call_abort kodi 0 status_key s
           (snd (_get_service_status kodi status_key s)) (PyDict ∅) PyNone
           (with_abort true (widget ""))).
  - reflexivity.
  - vm_compute. reflexivity.
  - vm_compute. reflexivity.
  - reflexivity.
  - reflexivity.
Defined.

(** X18 on a widget call while the service stays down. *)
Lemma check_addon_external_call_timeout_witness :
  exists (s' : state World) (evs : list event),
    _check_addon_external_call kodi (max_polls + 0) status_key (start (widget ""))
    = (Ret true, s')
    /\ trace s' = trace (start (widget "")) ++ evs
    /\ polls evs = max_polls
    /\ waits evs = (max_polls - 1)%nat
    /\ inject_Z (Z.of_nat (waits evs)) * poll_interval == limit_sec.
Proof.
  apply (check_addon_external_call_timeout kodi 0 status_key service_down (start (widget ""))).
  - intros w (Hprop & Hwrites & Habort). exists w. split; [| repeat split; assumption].
    cbn. rewrite Hprop. reflexivity.
  - intros w (Hprop & Hwrites & Habort). exists w. split; [| repeat split; assumption].
    cbn. rewrite Habort. reflexivity.
  - intros w (Hprop & Hwrites & Habort). exists w. split; [| repeat split; assumption].
    cbn. rewrite Hwrites, Habort. reflexivity.
  - repeat split.
  - reflexivity.
Defined.

(** X19 on the status [{"status": "error", "message": "X"}]: the error
    dialog carries the message. *)
Lemma run_service_not_running_witness :
  let r := run kodi 21 [] (start (with_status (Some doc_error) (browsing ""))) in
  fst r = Ret false
  /\ trace (snd r)
     = [EvInitGlobals []; EvResetLogLevel;
        EvLog LInfo "Started (Version 1.0.0)" [];
        EvLog LInfo "URL is plugin://plugin.video.netflix/" [];
        EvGetProperty status_key;
        EvShowErrorInfo "Netflix" "Background services error: {}X" false false;
        EvEndOfDirectory 1 false; EvLogTimeTrace].
Proof.
  cbv zeta.
  erewrite (run_service_not_running kodi 21 []
              (start (with_status (Some doc_error) (browsing "")))); cycle 1.
  - reflexivity.
  - vm_compute. reflexivity.
  - vm_compute. reflexivity.
  - split; vm_compute; reflexivity.
Defined.

(** X20 on a widget call while the service stays down. *)
Lemma run_external_not_running_witness :
  let r := run kodi 21 [] (start (widget "")) in
  fst r = Ret false
  /\ existsb is_dialog (trace (snd r)) = false
  /\ existsb is_end_of_directory (trace (snd r)) = true.
Proof.
  cbv zeta.
  erewrite (run_external_not_running kodi 21 [] (start (widget ""))); cycle 1.
  - vm_compute. reflexivity.
  - vm_compute. reflexivity.
  - vm_compute. reflexivity.
  - vm_compute. repeat split.
Defined.

(** X21 on the status [[]]. *)
Lemma run_status_not_a_mapping_witness :
  fst (run kodi 21 [] (start (with_status (Some "[]") (browsing ""))))
  = Raise (Exn AttributeError "'list' object has no attribute 'get'").
Proof.
  erewrite (run_status_not_a_mapping kodi 21 []
              (start (with_status (Some "[]") (browsing ""))) _ _ false (PyList [])); cycle 1.
  - vm_compute. reflexivity.
  - vm_compute. reflexivity.
  - intros d H. discriminate H.
  - reflexivity.
Defined.

(** X22 on [foo/export]. *)
Lemma run_unknown_root_witness :
  let w := browsing "foo/export" in
  let failure := Exn InvalidPathError "No root handler for path foo/export" in
  exists s' : state World,
    run kodi 1 [] (start w) = (Ret false, s')
    /\ trace s'
       = trace (snd (run_startup kodi 1 [] (start w)))
         ++ [EvCheckCredentials;
             EvLog LDebug "Routing navigation request" [];
             EvLog LError (py2_decode kodi (format_exc kodi failure)) [];
             EvShowAddonErrorInfo failure;
             EvEndOfDirectory 1 false;
             EvLogTimeTrace].
Proof.
  intros w failure.
  apply (run_unknown_root kodi 0 [] (start w) (snd (run_startup kodi 1 [] (start w)))
           "foo" ["export"] (with_credentials [] w)).
  - vm_compute. reflexivity.
  - reflexivity.
  - vm_compute. reflexivity.
  - vm_compute. intros H. repeat (destruct H as [H | H]; [discriminate H |]). exact H.
  - vm_compute. reflexivity.
Defined.

(** X23 on a directory request on the first run after an upgrade. *)
Lemma run_dispatch_cancel_play_only_witness :
  let s := start (upgraded "directory/root") in
  fst (run_dispatch kodi 1 s) = Ret true
  /\ existsb handler_event (trace (snd (run_dispatch kodi 1 s))) = true.
Proof.
  intros s.
  rewrite (run_dispatch_cancel_play_only kodi 1 s false true (upgraded "directory/root")).
  - vm_compute. split; reflexivity.
  - reflexivity.
  - reflexivity.
  - vm_compute. discriminate.
Defined.

End Concrete.
